(** * Loop Box pricing engine: the financial calculations of [calculations.py]

    A shallow embedding of the calculation pipeline (revenue, COGS, OpEx,
    other items, income statement, unit economics, break-even, sensitivity
    scenarios and chart sampling) together with the properties stated about
    it.

    Numbers.  The Python code computes on [int] and [float] values.  Here a
    finite number is an exact rational ([Q]): integers embed into it and a
    decimal literal such as [0.10] is the rational 1/10.  Rounding, overflow
    and the conversion of huge integers to binary64 are therefore outside
    the model: the numbers meant are those binary64 holds, and the
    [OverflowError] and [ValueError] that Python raises for an integer
    beyond that range or for [int()] of an infinity or a NaN have no
    counterpart here.  Where a statement below says that a call returns, it
    says that no division by zero stops it.  What is kept of Python's
    arithmetic:
    - [a / b] raises [ZeroDivisionError] when [b] is zero;
    - [float('inf')] and the few operations the code applies to it;
    - [int(x)] truncates towards zero, [a // b] rounds towards minus
      infinity;
    - [max(a, b)] returns [a] unless [b > a]. *)

From Stdlib Require Import QArith Qabs Qminmax ZArith List Bool Lia Lqa.
From Stdlib Require String.
Import ListNotations.

Local Open Scope Q_scope.

(** ** Python arithmetic *)

Module Py.

(** The one exception the calculations raise on numbers within the range
    of binary64.  [OverflowError] (an integer too large for a float) and
    [ValueError] are not modelled. *)
Inductive exn : Type :=
| ZeroDivisionError.

Inductive result (A : Type) : Type :=
| Ok (a : A)
| Raise (e : exn).

Arguments Ok {A} a.
Arguments Raise {A} e.

Definition bind {A B : Type} (m : result A) (k : A -> result B) : result B :=
  match m with
  | Ok a => k a
  | Raise e => Raise e
  end.

(** [a < b] as the boolean a Python comparison yields. *)
Definition ltb (a b : Q) : bool := negb (Qle_bool b a).

(** [a / b] on finite numbers. *)
Definition truediv (a b : Q) : result Q :=
  if Qeq_bool b 0 then Raise ZeroDivisionError else Ok (a / b).

(** [max(a, b)]: the first argument is kept unless the second is larger. *)
Definition max (a b : Q) : Q := if ltb a b then b else a.

(** [int(x)]: truncation towards zero. *)
Definition int (x : Q) : Z := Z.quot (Qnum x) (Zpos (Qden x)).

(** [a // b] on integers: floor division. *)
Definition floordiv (a b : Z) : result Z :=
  if Z.eqb b 0 then Raise ZeroDivisionError else Ok (Z.div a b).

(** A [float] that may be infinite: the values a break-even threshold
    takes once [float('inf')] is in play. *)
Inductive float : Type :=
| Fin (q : Q)
| PInf
| NInf
| NaN.

(** [x / d] for a possibly infinite [x] and a finite [d]. *)
Definition float_truediv (x : float) (d : Q) : result float :=
  if Qeq_bool d 0 then Raise ZeroDivisionError
  else Ok match x with
          | Fin q => Fin (q / d)
          | PInf => if ltb 0 d then PInf else NInf
          | NInf => if ltb 0 d then NInf else PInf
          | NaN => NaN
          end.

(** [x * k] for a possibly infinite [x] and a finite [k]. *)
Definition float_mul (x : float) (k : Q) : float :=
  match x with
  | Fin q => Fin (q * k)
  | PInf => if ltb 0 k then PInf else if ltb k 0 then NInf else NaN
  | NInf => if ltb 0 k then NInf else if ltb k 0 then PInf else NaN
  | NaN => NaN
  end.

(** [x < y] on possibly infinite floats; [NaN] compares with nothing. *)
Definition float_lt (x y : float) : Prop :=
  match x, y with
  | Fin a, Fin b => a < b
  | Fin _, PInf => True
  | NInf, Fin _ => True
  | NInf, PInf => True
  | _, _ => False
  end.

End Py.

Import Py.

Notation "x <- m ;; k" := (Py.bind m (fun x => k))
  (at level 61, m at next level, right associativity).

(** ** Assumption bundles

    The engine receives four dictionaries.  Each is a record here, a key
    being a field; [d.copy()] followed by [d[k] = x] is a record that agrees
    with [d] on every field but [k]. *)

Module Pricing.
Record t : Type := mk {
  container_price : Q;
  monthly_fee : Q;
  setup_fee : Q;
  per_use_fee : Q;
  deposit : Q;
  incentive : Q;
  green_fee : Q;
  revenue_share_pct : Q
}.

Definition set_per_use_fee (p : t) (x : Q) : t :=
  mk (container_price p) (monthly_fee p) (setup_fee p) x
     (deposit p) (incentive p) (green_fee p) (revenue_share_pct p).
End Pricing.

Module Volume.
Record t : Type := mk {
  restaurants : Q;
  new_restaurants : Q;
  orders_per_day : Q;
  operating_days : Q;
  collection_rate : Q;
  shrinkage : Q;
  zomato_orders_per_day : Q;
  zomato_operating_days : Q
}.

Definition set_collection_rate (v : t) (x : Q) : t :=
  mk (restaurants v) (new_restaurants v) (orders_per_day v)
     (operating_days v) x (shrinkage v)
     (zomato_orders_per_day v) (zomato_operating_days v).

Definition set_orders_per_day (v : t) (x : Q) : t :=
  mk (restaurants v) (new_restaurants v) x
     (operating_days v) (collection_rate v) (shrinkage v)
     (zomato_orders_per_day v) (zomato_operating_days v).
End Volume.

Module Cogs.
Record t : Type := mk {
  container_cost : Q;
  container_lifespan : Q;
  wash_cost : Q;
  collection_cost : Q;
  qc_batch_cost : Q;
  batches_per_month : Q
}.

Definition set_wash_cost (c : t) (x : Q) : t :=
  mk (container_cost c) (container_lifespan c) x
     (collection_cost c) (qc_batch_cost c) (batches_per_month c).
End Cogs.

Module Opex.
Record t : Type := mk {
  technology : Q;
  marketing : Q;
  ga : Q;
  num_sales_people : Q;
  avg_salary : Q;
  num_hubs : Q;
  rent_per_hub : Q;
  utilities_per_hub : Q;
  workers_per_hub : Q;
  worker_salary : Q
}.
End Opex.

(** ** Results *)

Module Revenue.
Record t : Type := mk {
  total_orders : Q;
  usage_revenue : Q;
  subscription_revenue : Q;
  setup_revenue : Q;
  shrinkage_revenue : Q;
  aggregator_revenue : Q;
  total_revenue : Q
}.
End Revenue.

Module CogsCalc.
Record t : Type := mk {
  amortization : Q;
  washing : Q;
  collection : Q;
  qc : Q;
  total_cogs : Q;
  amortization_per_order : Q
}.
End CogsCalc.

Module OpexCalc.
Record t : Type := mk {
  technology : Q;
  marketing : Q;
  sales_salaries : Q;
  ga : Q;
  facility_costs : Q;
  total_opex : Q
}.
End OpexCalc.

Module Other.
Record t : Type := mk {
  depreciation : Q;
  interest : Q
}.
End Other.

Module IncomeStatement.
Record t : Type := mk {
  revenue : Revenue.t;
  cogs : CogsCalc.t;
  gross_profit : Q;
  gross_margin : Q;
  opex : OpexCalc.t;
  ebitda : Q;
  ebitda_margin : Q;
  other : Other.t;
  net_income : Q;
  net_margin : Q
}.
End IncomeStatement.

Module UnitEconomics.
Record t : Type := mk {
  revenue_per_order : Q;
  cogs_per_order : Q;
  gross_profit_per_order : Q;
  opex_per_order : Q
}.
End UnitEconomics.

Module Breakeven.
Record t : Type := mk {
  fixed_costs_annual : Q;
  variable_cost_per_order : Q;
  revenue_per_order : Q;
  contribution_margin_per_order : Q;
  breakeven_orders : Py.float;
  breakeven_restaurants : Py.float;
  months_to_breakeven : Py.float
}.
End Breakeven.

Module Sensitivity.
Record t : Type := mk {
  base : Breakeven.t;
  collection_rate_drop : Breakeven.t;
  wash_cost_increase : Breakeven.t;
  per_use_fee_increase : Breakeven.t;
  orders_per_day_drop : Breakeven.t
}.
End Sensitivity.

Module Chart.
Record t : Type := mk {
  orders_range : list Z;
  revenue_line : list Q;
  cost_line : list Q;
  breakeven_point : Py.float
}.
End Chart.

(** ** The calculation functions *)

Definition calculate_revenue (pricing : Pricing.t) (volume : Volume.t) : Revenue.t :=
  let total_orders :=
    Volume.restaurants volume * Volume.orders_per_day volume * Volume.operating_days volume in
  let usage_revenue := total_orders * Pricing.per_use_fee pricing in
  let subscription_revenue :=
    Volume.restaurants volume * Pricing.monthly_fee pricing * (Volume.operating_days volume / 30) in
  let setup_revenue := Volume.new_restaurants volume * Pricing.setup_fee pricing in
  let shrinkage_revenue := total_orders * Pricing.deposit pricing * Volume.shrinkage volume in
  let aggregator_revenue :=
    Volume.zomato_orders_per_day volume * Volume.zomato_operating_days volume *
    Pricing.green_fee pricing * Pricing.revenue_share_pct pricing in
  let total_revenue :=
    usage_revenue + subscription_revenue + setup_revenue +
    shrinkage_revenue + aggregator_revenue in
  Revenue.mk total_orders usage_revenue subscription_revenue setup_revenue
             shrinkage_revenue aggregator_revenue total_revenue.

Definition calculate_cogs (cogs : Cogs.t) (volume : Volume.t) (total_orders : Q)
  : result CogsCalc.t :=
  amortization_per_order <-
    truediv (Cogs.container_cost cogs) (Cogs.container_lifespan cogs) ;;
  let amortization := total_orders * amortization_per_order in
  let washing := total_orders * Volume.collection_rate volume * Cogs.wash_cost cogs in
  let collection := total_orders * Cogs.collection_cost cogs in
  let qc :=
    Cogs.qc_batch_cost cogs * Cogs.batches_per_month cogs * (Volume.operating_days volume / 30) in
  let total_cogs := amortization + washing + collection + qc in
  Ok (CogsCalc.mk amortization washing collection qc total_cogs amortization_per_order).

Definition calculate_opex (opex : Opex.t) (volume : Volume.t) : OpexCalc.t :=
  let sales_salaries := Opex.num_sales_people opex * Opex.avg_salary opex in
  let months_operating := Volume.operating_days volume / 30 in
  let facility_rent := Opex.num_hubs opex * Opex.rent_per_hub opex * months_operating in
  let facility_utilities := Opex.num_hubs opex * Opex.utilities_per_hub opex * months_operating in
  let facility_labor :=
    Opex.num_hubs opex * Opex.workers_per_hub opex * Opex.worker_salary opex * months_operating in
  let facility_costs := facility_rent + facility_utilities + facility_labor in
  let total_opex :=
    Opex.technology opex + Opex.marketing opex + sales_salaries +
    Opex.ga opex + facility_costs in
  OpexCalc.mk (Opex.technology opex) (Opex.marketing opex) sales_salaries
              (Opex.ga opex) facility_costs total_opex.

Definition calculate_other_items (volume : Volume.t) (restaurants : Q) : Other.t :=
  let depreciation :=
    if ltb (Volume.operating_days volume) 365 then - 2500000
    else if ltb restaurants 2000 then - 6000000
    else - 14500000 in
  let interest :=
    if ltb (Volume.operating_days volume) 365 then 250000
    else if ltb restaurants 2000 then 500000
    else 1500000 in
  Other.mk depreciation interest.

Definition calculate_full_income_statement
  (pricing : Pricing.t) (volume : Volume.t) (cogs : Cogs.t) (opex : Opex.t)
  : result IncomeStatement.t :=
  let revenue := calculate_revenue pricing volume in
  cogs_calc <- calculate_cogs cogs volume (Revenue.total_orders revenue) ;;
  let gross_profit := Revenue.total_revenue revenue - CogsCalc.total_cogs cogs_calc in
  gross_margin <-
    (if ltb 0 (Revenue.total_revenue revenue)
     then q <- truediv gross_profit (Revenue.total_revenue revenue) ;; Ok (q * 100)
     else Ok 0) ;;
  let opex_calc := calculate_opex opex volume in
  let ebitda := gross_profit - OpexCalc.total_opex opex_calc in
  ebitda_margin <-
    (if ltb 0 (Revenue.total_revenue revenue)
     then q <- truediv ebitda (Revenue.total_revenue revenue) ;; Ok (q * 100)
     else Ok 0) ;;
  let other := calculate_other_items volume (Volume.restaurants volume) in
  let net_income := ebitda + Other.depreciation other + Other.interest other in
  net_margin <-
    (if ltb 0 (Revenue.total_revenue revenue)
     then q <- truediv net_income (Revenue.total_revenue revenue) ;; Ok (q * 100)
     else Ok 0) ;;
  Ok (IncomeStatement.mk revenue cogs_calc gross_profit gross_margin opex_calc
                         ebitda ebitda_margin other net_income net_margin).

Definition calculate_unit_economics (income_statement : IncomeStatement.t)
  : result UnitEconomics.t :=
  let total_orders := Revenue.total_orders (IncomeStatement.revenue income_statement) in
  let total_revenue := Revenue.total_revenue (IncomeStatement.revenue income_statement) in
  let total_cogs := CogsCalc.total_cogs (IncomeStatement.cogs income_statement) in
  let total_opex := OpexCalc.total_opex (IncomeStatement.opex income_statement) in
  revenue_per_order <-
    (if ltb 0 total_orders then truediv total_revenue total_orders else Ok 0) ;;
  cogs_per_order <-
    (if ltb 0 total_orders then truediv total_cogs total_orders else Ok 0) ;;
  let gross_profit_per_order := revenue_per_order - cogs_per_order in
  opex_per_order <-
    (if ltb 0 total_orders then truediv total_opex total_orders else Ok 0) ;;
  Ok (UnitEconomics.mk revenue_per_order cogs_per_order gross_profit_per_order
                       opex_per_order).

Definition calculate_breakeven
  (pricing : Pricing.t) (volume : Volume.t) (cogs : Cogs.t) (opex : Opex.t)
  : result Breakeven.t :=
  let opex_calc := calculate_opex opex volume in
  let other := calculate_other_items volume (Volume.restaurants volume) in
  let fixed_costs_annual :=
    OpexCalc.total_opex opex_calc + Qabs (Other.depreciation other) in
  amortization_per_order <-
    truediv (Cogs.container_cost cogs) (Cogs.container_lifespan cogs) ;;
  let wash_cost_per_order := Cogs.wash_cost cogs * Volume.collection_rate volume in
  let collection_cost_per_order := Cogs.collection_cost cogs in
  let variable_cost_per_order :=
    amortization_per_order + wash_cost_per_order + collection_cost_per_order in
  let revenue_per_order := Pricing.per_use_fee pricing in
  revenue_per_order <-
    (if ltb 0 (Volume.orders_per_day volume) && ltb 0 (Volume.operating_days volume)
     then
       let total_orders_estimate :=
         Volume.restaurants volume * Volume.orders_per_day volume *
         Volume.operating_days volume in
       if ltb 0 total_orders_estimate
       then
         monthly_fee_per_order <-
           truediv (Volume.restaurants volume * Pricing.monthly_fee pricing *
                    (Volume.operating_days volume / 30))
                   total_orders_estimate ;;
         setup_fee_per_order <-
           truediv (Volume.new_restaurants volume * Pricing.setup_fee pricing)
                   total_orders_estimate ;;
         let deposit_per_order := Pricing.deposit pricing * Volume.shrinkage volume in
         Ok (revenue_per_order +
             (monthly_fee_per_order + setup_fee_per_order + deposit_per_order))
       else Ok revenue_per_order
     else Ok revenue_per_order) ;;
  revenue_per_order <-
    (if ltb 0 (Volume.zomato_orders_per_day volume) &&
        ltb 0 (Volume.zomato_operating_days volume)
     then
       let total_orders_with_aggregator :=
         Volume.restaurants volume * Volume.orders_per_day volume *
         Volume.operating_days volume +
         Volume.zomato_orders_per_day volume * Volume.zomato_operating_days volume in
       let aggregator_revenue_total :=
         Volume.zomato_orders_per_day volume * Volume.zomato_operating_days volume *
         Pricing.green_fee pricing * Pricing.revenue_share_pct pricing in
       if ltb 0 total_orders_with_aggregator
       then
         q <- truediv aggregator_revenue_total total_orders_with_aggregator ;;
         Ok (revenue_per_order + q)
       else Ok revenue_per_order
     else Ok revenue_per_order) ;;
  let contribution_margin_per_order := revenue_per_order - variable_cost_per_order in
  breakeven_orders <-
    (if ltb 0 contribution_margin_per_order
     then q <- truediv fixed_costs_annual contribution_margin_per_order ;; Ok (Fin q)
     else Ok PInf) ;;
  breakeven_restaurants <-
    (if ltb 0 (Volume.orders_per_day volume) && ltb 0 (Volume.operating_days volume)
     then
       let orders_per_restaurant_annual :=
         Volume.orders_per_day volume * Volume.operating_days volume in
       if ltb 0 orders_per_restaurant_annual
       then float_truediv breakeven_orders orders_per_restaurant_annual
       else Ok PInf
     else Ok PInf) ;;
  months_to_breakeven <-
    (if ltb 0 (Volume.orders_per_day volume) && ltb 0 (Volume.restaurants volume)
     then
       let year1_total_orders :=
         Volume.restaurants volume * Volume.orders_per_day volume *
         Volume.operating_days volume in
       let avg_daily_orders :=
         Volume.restaurants volume * Volume.orders_per_day volume in
       if ltb 0 year1_total_orders && ltb 0 contribution_margin_per_order
       then
         q <- float_truediv breakeven_orders year1_total_orders ;;
         Ok (float_mul q 12)
       else Ok PInf
     else Ok PInf) ;;
  Ok (Breakeven.mk fixed_costs_annual variable_cost_per_order revenue_per_order
                   contribution_margin_per_order breakeven_orders
                   breakeven_restaurants months_to_breakeven).

(** The four perturbed dictionaries of the sensitivity analysis. *)

Definition volume_s1 (volume : Volume.t) : Volume.t :=
  Volume.set_collection_rate volume
    (Py.max (1 # 2) (Volume.collection_rate volume - (1 # 10))).

Definition cogs_s2 (cogs : Cogs.t) : Cogs.t :=
  Cogs.set_wash_cost cogs (Cogs.wash_cost cogs * (6 # 5)).

Definition pricing_s3 (pricing : Pricing.t) : Pricing.t :=
  Pricing.set_per_use_fee pricing (Pricing.per_use_fee pricing + (1 # 2)).

Definition volume_s4 (volume : Volume.t) : Volume.t :=
  Volume.set_orders_per_day volume 40.

Definition calculate_sensitivity_analysis
  (pricing : Pricing.t) (volume : Volume.t) (cogs : Cogs.t) (opex : Opex.t)
  : result Sensitivity.t :=
  base_breakeven <- calculate_breakeven pricing volume cogs opex ;;
  s1_breakeven <- calculate_breakeven pricing (volume_s1 volume) cogs opex ;;
  s2_breakeven <- calculate_breakeven pricing volume (cogs_s2 cogs) opex ;;
  s3_breakeven <- calculate_breakeven (pricing_s3 pricing) volume cogs opex ;;
  s4_breakeven <- calculate_breakeven pricing (volume_s4 volume) cogs opex ;;
  Ok (Sensitivity.mk base_breakeven s1_breakeven s2_breakeven s3_breakeven
                     s4_breakeven).

(** [range(n)] as the integers it yields. *)
Definition range (n : nat) : list Z := map Z.of_nat (seq 0 n).

(** The product [year3_orders * 1.5] is taken exactly.  The code takes it
    in binary64: the two agree when [year3_orders] is an integer of
    magnitude at most 2^51 (3n/2 is then a binary64 number), which is how
    the dashboard calls the function, on a product of integer inputs; for
    other floats the code rounds the product before [int()] sees it. *)
Definition generate_breakeven_chart_data
  (pricing : Pricing.t) (volume : Volume.t) (cogs : Cogs.t) (opex : Opex.t)
  (year3_orders : Q) : result Chart.t :=
  breakeven <- calculate_breakeven pricing volume cogs opex ;;
  let max_orders := Py.int (year3_orders * (3 # 2)) in
  let order_steps := 20%nat in
  step_size <- floordiv max_orders (Z.of_nat order_steps) ;;
  let orders_range := map (fun i => (i * step_size)%Z) (range (order_steps + 1)) in
  let opex_calc := calculate_opex opex volume in
  let other := calculate_other_items volume (Volume.restaurants volume) in
  let fixed_costs :=
    OpexCalc.total_opex opex_calc + Qabs (Other.depreciation other) in
  let revenue_line :=
    map (fun orders => inject_Z orders * Breakeven.revenue_per_order breakeven)
        orders_range in
  let cost_line :=
    map (fun orders =>
           fixed_costs + inject_Z orders * Breakeven.variable_cost_per_order breakeven)
        orders_range in
  Ok (Chart.mk orders_range revenue_line cost_line
               (Breakeven.breakeven_orders breakeven)).

(** ** Change tracking (the dashboard's [track_change])

    The dashboard keeps, in its session state, the three yearly bundles, a
    log of tracked changes and the year-3 net income seen last.
    [track_change] reads and updates that state; here the state is passed
    in and the updated state is returned.  The clock reading
    [datetime.now()], already formatted, is an argument. *)

Module YearData.
Record t : Type := mk {
  pricing : Pricing.t;
  volume : Volume.t;
  cogs : Cogs.t;
  opex : Opex.t
}.
End YearData.

Module ChangeEntry.
Record t : Type := mk {
  timestamp : String.string;
  variable : String.string;
  year : String.string;
  old_value : Q;
  new_value : Q;
  impact_abs : Q;
  impact_pct : Q
}.
End ChangeEntry.

Module SessionState.
Record t : Type := mk {
  year1 : YearData.t;
  year2 : YearData.t;
  year3 : YearData.t;
  change_history : list ChangeEntry.t;
  previous_year3_net_income : option Q
}.

Definition append_change (st : t) (e : ChangeEntry.t) : t :=
  mk (year1 st) (year2 st) (year3 st) (change_history st ++ [e])
     (previous_year3_net_income st).

Definition set_previous_year3_net_income (st : t) (x : option Q) : t :=
  mk (year1 st) (year2 st) (year3 st) (change_history st) x.
End SessionState.

Definition track_change
  (now : String.string) (variable_name : String.string)
  (old_value new_value : Q) (year : String.string) (st : SessionState.t)
  : result SessionState.t :=
  if negb (Qeq_bool old_value new_value)
  then
    let timestamp := now in
    let year3_data := SessionState.year3 st in
    is_calc <-
      calculate_full_income_statement
        (YearData.pricing year3_data) (YearData.volume year3_data)
        (YearData.cogs year3_data) (YearData.opex year3_data) ;;
    let new_net_income := IncomeStatement.net_income is_calc in
    st <-
      match SessionState.previous_year3_net_income st with
      | Some previous =>
          let impact_abs := new_net_income - previous in
          impact_pct <-
            (if negb (Qeq_bool previous 0)
             then q <- truediv impact_abs (Qabs previous) ;; Ok (q * 100)
             else Ok 0) ;;
          Ok (SessionState.append_change st
                (ChangeEntry.mk timestamp variable_name year old_value new_value
                                impact_abs impact_pct))
      | None => Ok st
      end ;;
    Ok (SessionState.set_previous_year3_net_income st (Some new_net_income))
  else Ok st.

(** ** Sample bundles *)

Module Sample.

(** The base case of the worked scenario: 500 restaurants, 50 orders a
    day, 300 operating days, a per-use fee of 2, a monthly fee of 1000, a
    deposit of 20 with 5% shrinkage, a collection rate of 0.9 and a
    container of cost 100 living 150 uses.  The remaining fields are
    illustrative values. *)
Definition pricing : Pricing.t :=
  Pricing.mk 150 1000 5000 2 20 5 0 0.
Definition volume : Volume.t :=
  Volume.mk 500 100 50 300 (9 # 10) (5 # 100) 0 0.
Definition cogs : Cogs.t :=
  Cogs.mk 100 150 (3 # 2) 1 5000 4.
Definition opex : Opex.t :=
  Opex.mk 5000000 8000000 3000000 10 600000 5 100000 50000 10 15000.



(** A session in which the three years carry the base case, nothing has
    been tracked yet and the year-3 net income seen last was 0. *)
Definition year : YearData.t :=
  YearData.mk pricing volume cogs opex.
Definition session : SessionState.t :=
  SessionState.mk year year year [] (Some 0).

(** Labels for a tracked change. *)
Import String.
Local Open Scope string_scope.
Definition clock : string := "2025-01-01 12:00:00".
Definition fee_label : string := "per_use_fee".
Definition year_label : string := "year3".

End Sample.

(** ** Facts about the arithmetic *)

Section Arithmetic.

Lemma ltb_true_iff (a b : Q) : ltb a b = true <-> a < b.
Proof.
  unfold ltb. rewrite negb_true_iff. split.
  - intros H. apply Qnot_le_lt. intros Hle.
    apply Qle_bool_iff in Hle. congruence.
  - intros H. destruct (Qle_bool b a) eqn:E; [|reflexivity].
    apply Qle_bool_iff in E. exfalso. apply (Qlt_not_le _ _ H E).
Qed.

Lemma ltb_false_iff (a b : Q) : ltb a b = false <-> b <= a.
Proof.
  unfold ltb. rewrite negb_false_iff. apply Qle_bool_iff.
Qed.

Lemma truediv_ok (a b : Q) : ~ b == 0 -> truediv a b = Ok (a / b).
Proof.
  intros H. unfold truediv. destruct (Qeq_bool b 0) eqn:E; [|reflexivity].
  apply Qeq_bool_iff in E. contradiction.
Qed.

Lemma truediv_raise (a b : Q) : b == 0 -> truediv a b = Raise ZeroDivisionError.
Proof.
  intros H. unfold truediv. apply Qeq_bool_iff in H. now rewrite H.
Qed.


Lemma truediv_guarded (a b : Q) : ltb 0 b = true -> truediv a b = Ok (a / b).
Proof.
  intros H. apply ltb_true_iff in H. apply truediv_ok. lra.
Qed.

Lemma float_truediv_guarded (x : float) (d : Q) :
  ltb 0 d = true ->
  float_truediv x d =
  Ok match x with
     | Fin q => Fin (q / d)
     | PInf => PInf
     | NInf => NInf
     | NaN => NaN
     end.
Proof.
  intros H. unfold float_truediv. rewrite H.
  apply ltb_true_iff in H.
  destruct (Qeq_bool d 0) eqn:E.
  - apply Qeq_bool_iff in E. lra.
  - reflexivity.
Qed.

Lemma bind_ok_inv {A B : Type} (m : result A) (k : A -> result B) (b : B) :
  bind m k = Ok b -> exists a, m = Ok a /\ k a = Ok b.
Proof.
  destruct m as [a|e]; simpl; [eauto | discriminate].
Qed.

Lemma max_lower_bound (a b : Q) : a <= Py.max a b.
Proof.
  unfold Py.max. destruct (ltb a b) eqn:E.
  - apply ltb_true_iff in E. lra.
  - lra.
Qed.

Lemma max_is_Qmax (a b : Q) : Py.max a b == Qmax a b.
Proof.
  unfold Py.max. destruct (ltb a b) eqn:E.
  - apply ltb_true_iff in E. symmetry. apply Q.max_r. lra.
  - apply ltb_false_iff in E. symmetry. now apply Q.max_l.
Qed.

End Arithmetic.

(** Peel the binds of a computation known to have succeeded. *)
Ltac peel H :=
  repeat (apply bind_ok_inv in H;
          let a := fresh "x" in
          let E := fresh "E" in
          destruct H as (a & E & H)).

(** Decide the guards of a computation one after the other, and let every
    division behind a guard that holds go through. *)
Ltac use_guards :=
  repeat first
    [ progress cbn [bind andb]
    | match goal with
      | E : ltb 0 ?d = true |- context [truediv _ ?d] =>
          rewrite !(truediv_guarded _ _ E)
      | E : ltb 0 ?d = true |- context [float_truediv _ ?d] =>
          rewrite !(float_truediv_guarded _ _ E)
      end
    | match goal with
      | E : ltb ?a ?b = _ |- context [ltb ?a ?b] => rewrite E
      end
    | match goal with
      | |- context [if ltb ?a ?b then _ else _] =>
          let E := fresh "E" in destruct (ltb a b) eqn:E
      | |- context [andb (ltb ?a ?b) _] =>
          let E := fresh "E" in destruct (ltb a b) eqn:E
      end ].

(** ** Which calls raise *)

Section Raising.

Variables (pricing : Pricing.t) (volume : Volume.t) (cogs : Cogs.t) (opex : Opex.t).


Lemma calculate_cogs_returns (total_orders : Q) :
  ~ Cogs.container_lifespan cogs == 0 ->
  exists b, calculate_cogs cogs volume total_orders = Ok b.
Proof.
  intros H. unfold calculate_cogs. rewrite (truediv_ok _ _ H). simpl. eauto.
Qed.

Lemma calculate_full_income_statement_returns :
  ~ Cogs.container_lifespan cogs == 0 ->
  exists s, calculate_full_income_statement pricing volume cogs opex = Ok s.
Proof.
  intros H. unfold calculate_full_income_statement, calculate_cogs.
  rewrite (truediv_ok _ _ H). simpl.
  destruct (ltb 0 _) eqn:E.
  - rewrite !(truediv_guarded _ _ E). simpl. eauto.
  - simpl. eauto.
Qed.



Lemma calculate_breakeven_returns :
  ~ Cogs.container_lifespan cogs == 0 ->
  exists r, calculate_breakeven pricing volume cogs opex = Ok r.
Proof.
  intros H. unfold calculate_breakeven.
  rewrite (truediv_ok _ _ H). cbv zeta.
  use_guards; eauto.
Qed.

Lemma calculate_breakeven_raise_iff (e : exn) :
  calculate_breakeven pricing volume cogs opex = Raise e <->
  Cogs.container_lifespan cogs == 0.
Proof.
  split.
  - intros H.
    destruct (Qeq_dec (Cogs.container_lifespan cogs) 0) as [E|E]; [exact E|].
    destruct (calculate_breakeven_returns E) as [r Hr]. congruence.
  - intros H. unfold calculate_breakeven.
    rewrite (truediv_raise _ _ H). cbn [bind]. now destruct e.
Qed.

End Raising.

(** ** The shape of a break-even result *)

Section BreakevenShape.

Variables (pricing : Pricing.t) (volume : Volume.t) (cogs : Cogs.t) (opex : Opex.t).
Variable r : Breakeven.t.
Hypothesis Hr : calculate_breakeven pricing volume cogs opex = Ok r.

Lemma breakeven_fixed_costs :
  Breakeven.fixed_costs_annual r =
  OpexCalc.total_opex (calculate_opex opex volume) +
  Qabs (Other.depreciation (calculate_other_items volume (Volume.restaurants volume))).
Proof.
  pose proof Hr as H. unfold calculate_breakeven in H. cbv zeta in H.
  peel H. injection H as <-. reflexivity.
Qed.

Lemma breakeven_margin :
  Breakeven.contribution_margin_per_order r =
  Breakeven.revenue_per_order r - Breakeven.variable_cost_per_order r.
Proof.
  pose proof Hr as H. unfold calculate_breakeven in H. cbv zeta in H.
  peel H. injection H as <-. reflexivity.
Qed.

Lemma breakeven_orders_cases :
  Breakeven.breakeven_orders r =
  if ltb 0 (Breakeven.contribution_margin_per_order r)
  then Fin (Breakeven.fixed_costs_annual r / Breakeven.contribution_margin_per_order r)
  else PInf.
Proof.
  pose proof Hr as H. unfold calculate_breakeven in H. cbv zeta in H.
  peel H. injection H as <-. cbn [Breakeven.breakeven_orders
    Breakeven.contribution_margin_per_order Breakeven.fixed_costs_annual].
  destruct (ltb 0 _) eqn:G in E2 |- *.
  - rewrite (truediv_guarded _ _ G) in E2. cbn [bind] in E2.
    injection E2 as <-. reflexivity.
  - injection E2 as <-. reflexivity.
Qed.

Lemma breakeven_restaurants_unreachable :
  ltb 0 (Breakeven.contribution_margin_per_order r) = false ->
  Breakeven.breakeven_restaurants r = PInf.
Proof.
  intros G. pose proof Hr as H. unfold calculate_breakeven in H. cbv zeta in H.
  peel H. injection H as <-.
  cbn [Breakeven.contribution_margin_per_order] in G.
  cbn [Breakeven.breakeven_restaurants].
  rewrite G in E2. injection E2 as <-.
  destruct (_ && _) in E3; [|congruence].
  destruct (ltb 0 _) eqn:G' in E3; [|congruence].
  rewrite (float_truediv_guarded _ _ G') in E3. congruence.
Qed.

Lemma breakeven_months_unreachable :
  ltb 0 (Breakeven.contribution_margin_per_order r) = false ->
  Breakeven.months_to_breakeven r = PInf.
Proof.
  intros G. pose proof Hr as H. unfold calculate_breakeven in H. cbv zeta in H.
  peel H. injection H as <-.
  cbn [Breakeven.contribution_margin_per_order] in G.
  cbn [Breakeven.months_to_breakeven].
  rewrite G, andb_false_r in E4.
  destruct (_ && _) in E4; congruence.
Qed.

End BreakevenShape.

(** ** Income statement *)

(** C1.  Whenever [calculate_full_income_statement] returns a statement
    (which it does for every bundle whose container lifespan is not zero),
    the statement is additive: total revenue is the sum of the five
    revenue streams, total COGS the sum of amortization, washing,
    collection and QC, total OpEx the sum of technology, marketing, sales
    salaries, G&A and facility costs, gross profit is revenue minus COGS,
    EBITDA is gross profit minus OpEx, and net income is EBITDA plus the
    (negative) depreciation plus interest. *)
Theorem income_statement_additive
  (pricing : Pricing.t) (volume : Volume.t) (cogs : Cogs.t) (opex : Opex.t) :
  (~ Cogs.container_lifespan cogs == 0 ->
   exists s, calculate_full_income_statement pricing volume cogs opex = Ok s) /\
  (forall s : IncomeStatement.t,
     calculate_full_income_statement pricing volume cogs opex = Ok s ->
     Revenue.total_revenue (IncomeStatement.revenue s) =
       Revenue.usage_revenue (IncomeStatement.revenue s) +
       Revenue.subscription_revenue (IncomeStatement.revenue s) +
       Revenue.setup_revenue (IncomeStatement.revenue s) +
       Revenue.shrinkage_revenue (IncomeStatement.revenue s) +
       Revenue.aggregator_revenue (IncomeStatement.revenue s) /\
     CogsCalc.total_cogs (IncomeStatement.cogs s) =
       CogsCalc.amortization (IncomeStatement.cogs s) +
       CogsCalc.washing (IncomeStatement.cogs s) +
       CogsCalc.collection (IncomeStatement.cogs s) +
       CogsCalc.qc (IncomeStatement.cogs s) /\
     OpexCalc.total_opex (IncomeStatement.opex s) =
       OpexCalc.technology (IncomeStatement.opex s) +
       OpexCalc.marketing (IncomeStatement.opex s) +
       OpexCalc.sales_salaries (IncomeStatement.opex s) +
       OpexCalc.ga (IncomeStatement.opex s) +
       OpexCalc.facility_costs (IncomeStatement.opex s) /\
     IncomeStatement.gross_profit s =
       Revenue.total_revenue (IncomeStatement.revenue s) -
       CogsCalc.total_cogs (IncomeStatement.cogs s) /\
     IncomeStatement.ebitda s =
       IncomeStatement.gross_profit s -
       OpexCalc.total_opex (IncomeStatement.opex s) /\
     IncomeStatement.net_income s =
       IncomeStatement.ebitda s +
       Other.depreciation (IncomeStatement.other s) +
       Other.interest (IncomeStatement.other s) /\
     Other.depreciation (IncomeStatement.other s) < 0).
Proof.
  split; [apply calculate_full_income_statement_returns|].
  intros s H. unfold calculate_full_income_statement in H. cbv zeta in H.
  peel H. injection H as <-.
  unfold calculate_cogs in E. peel E. injection E as <-.
  cbn [IncomeStatement.revenue IncomeStatement.cogs IncomeStatement.opex
       IncomeStatement.other IncomeStatement.gross_profit IncomeStatement.ebitda
       IncomeStatement.net_income CogsCalc.total_cogs CogsCalc.amortization
       CogsCalc.washing CogsCalc.collection CogsCalc.qc].
  repeat split.
  unfold calculate_other_items. cbn [Other.depreciation].
  destruct (ltb _ 365); [reflexivity|]. destruct (ltb _ 2000); reflexivity.
Qed.

Lemma income_statement_additive_witness :
  exists s,
    calculate_full_income_statement
      Sample.pricing Sample.volume Sample.cogs Sample.opex = Ok s /\
    IncomeStatement.gross_profit s =
      Revenue.total_revenue (IncomeStatement.revenue s) -
      CogsCalc.total_cogs (IncomeStatement.cogs s) /\
    IncomeStatement.net_income s =
      IncomeStatement.ebitda s +
      Other.depreciation (IncomeStatement.other s) +
      Other.interest (IncomeStatement.other s).
Proof.
  destruct (income_statement_additive
              Sample.pricing Sample.volume Sample.cogs Sample.opex) as [Hret Hinv].
  destruct Hret as [s Hs]; [vm_compute; discriminate|].
  exists s. split; [exact Hs|].
  destruct (Hinv s Hs) as (_ & _ & _ & Hgp & _ & Hni & _).
  split; [exact Hgp | exact Hni].
Defined.

(** ** Other items *)

(** C5.  [calculate_other_items] is a three-tier step function taken in
    priority order: fewer than 365 operating days; otherwise fewer than
    2000 restaurants; otherwise the full-scale tier.  At 365 operating
    days, 1999 restaurants fall in the middle tier and 2000 in the last. *)
Theorem other_items_tiers (volume : Volume.t) (restaurants : Q) :
  (Volume.operating_days volume < 365 ->
   Other.depreciation (calculate_other_items volume restaurants) = - 2500000 /\
   Other.interest (calculate_other_items volume restaurants) = 250000) /\
  (365 <= Volume.operating_days volume -> restaurants < 2000 ->
   Other.depreciation (calculate_other_items volume restaurants) = - 6000000 /\
   Other.interest (calculate_other_items volume restaurants) = 500000) /\
  (365 <= Volume.operating_days volume -> 2000 <= restaurants ->
   Other.depreciation (calculate_other_items volume restaurants) = - 14500000 /\
   Other.interest (calculate_other_items volume restaurants) = 1500000) /\
  (Volume.operating_days volume == 365 ->
   Other.depreciation (calculate_other_items volume 1999) = - 6000000 /\
   Other.depreciation (calculate_other_items volume 2000) = - 14500000).
Proof.
  unfold calculate_other_items. cbn [Other.depreciation Other.interest].
  repeat split; intros.
  1-2: assert (E : ltb (Volume.operating_days volume) 365 = true)
         by (apply ltb_true_iff; assumption); now rewrite E.
  all: assert (E : ltb (Volume.operating_days volume) 365 = false)
         by (apply ltb_false_iff; lra); rewrite E.
  1-2: assert (E' : ltb restaurants 2000 = true)
         by (apply ltb_true_iff; assumption); now rewrite E'.
  1-2: assert (E' : ltb restaurants 2000 = false)
         by (apply ltb_false_iff; assumption); now rewrite E'.
  all: reflexivity.
Qed.

Lemma other_items_tiers_witness :
  Other.depreciation (calculate_other_items Sample.volume 500) = - 2500000 /\
  Other.interest (calculate_other_items (Volume.set_orders_per_day Sample.volume 60) 500)
    = 250000 /\
  Other.depreciation
    (calculate_other_items (Volume.mk 1999 0 50 365 (9 # 10) (5 # 100) 0 0) 1999)
    = - 6000000 /\
  Other.depreciation
    (calculate_other_items (Volume.mk 2000 0 50 365 (9 # 10) (5 # 100) 0 0) 2000)
    = - 14500000 /\
  Other.depreciation
    (calculate_other_items (Volume.mk 1 0 50 365 (9 # 10) (5 # 100) 0 0) 1999)
    = - 6000000.
Proof.
  split.
  { destruct (other_items_tiers Sample.volume 500) as (T1 & _).
    apply T1. reflexivity. }
  split.
  { destruct (other_items_tiers (Volume.set_orders_per_day Sample.volume 60) 500)
      as (T1 & _).
    apply T1. reflexivity. }
  split.
  { destruct (other_items_tiers (Volume.mk 1999 0 50 365 (9 # 10) (5 # 100) 0 0) 1999)
      as (_ & T2 & _).
    apply T2.
    - vm_compute; discriminate.
    - reflexivity. }
  split.
  { destruct (other_items_tiers (Volume.mk 2000 0 50 365 (9 # 10) (5 # 100) 0 0) 2000)
      as (_ & _ & T3 & _).
    apply T3.
    - vm_compute; discriminate.
    - vm_compute; discriminate. }
  destruct (other_items_tiers (Volume.mk 1 0 50 365 (9 # 10) (5 # 100) 0 0) 0)
    as (_ & _ & _ & T4).
  apply T4. reflexivity.
Defined.

(** ** Break-even thresholds *)

(** C2.  When the contribution margin per order is not positive, the three
    break-even thresholds are the value [+inf]; they are returned in the
    result, the call does not raise (it returns for every bundle whose
    container lifespan is not zero).  When the margin is positive,
    [breakeven_orders] is the finite quotient of the annual fixed costs by
    the margin. *)
Theorem breakeven_unreachable_is_infinite
  (pricing : Pricing.t) (volume : Volume.t) (cogs : Cogs.t) (opex : Opex.t) :
  (~ Cogs.container_lifespan cogs == 0 ->
   exists r, calculate_breakeven pricing volume cogs opex = Ok r) /\
  (forall r : Breakeven.t,
     calculate_breakeven pricing volume cogs opex = Ok r ->
     (Breakeven.contribution_margin_per_order r <= 0 ->
      Breakeven.breakeven_orders r = PInf /\
      Breakeven.breakeven_restaurants r = PInf /\
      Breakeven.months_to_breakeven r = PInf) /\
     (0 < Breakeven.contribution_margin_per_order r ->
      Breakeven.breakeven_orders r =
      Fin (Breakeven.fixed_costs_annual r /
           Breakeven.contribution_margin_per_order r))).
Proof.
  split; [apply calculate_breakeven_returns|].
  intros r Hr. split; intros Hcm.
  - apply ltb_false_iff in Hcm. repeat split.
    + rewrite (breakeven_orders_cases _ _ _ _ _ Hr), Hcm. reflexivity.
    + exact (breakeven_restaurants_unreachable _ _ _ _ _ Hr Hcm).
    + exact (breakeven_months_unreachable _ _ _ _ _ Hr Hcm).
  - apply ltb_true_iff in Hcm.
    rewrite (breakeven_orders_cases _ _ _ _ _ Hr), Hcm. reflexivity.
Qed.

Lemma breakeven_unreachable_is_infinite_witness :
  (exists r,
     calculate_breakeven
       (Pricing.set_per_use_fee Sample.pricing 0)
       Sample.volume Sample.cogs Sample.opex = Ok r /\
     Breakeven.contribution_margin_per_order r <= 0 /\
     Breakeven.breakeven_orders r = PInf /\
     Breakeven.breakeven_restaurants r = PInf /\
     Breakeven.months_to_breakeven r = PInf) /\
  (exists r,
     calculate_breakeven Sample.pricing Sample.volume Sample.cogs Sample.opex = Ok r /\
     0 < Breakeven.contribution_margin_per_order r /\
     Breakeven.breakeven_orders r =
     Fin (Breakeven.fixed_costs_annual r /
          Breakeven.contribution_margin_per_order r)).
Proof.
  split.
  - destruct (breakeven_unreachable_is_infinite
                (Pricing.set_per_use_fee Sample.pricing 0)
                Sample.volume Sample.cogs Sample.opex) as [Hret Hshape].
    destruct Hret as [r Hr]; [vm_compute; discriminate|].
    exists r. split; [exact Hr|].
    assert (Hcm : Breakeven.contribution_margin_per_order r <= 0).
    { revert Hr. vm_compute. intros Hr. injection Hr as <-. discriminate. }
    split; [exact Hcm|].
    exact (proj1 (Hshape r Hr) Hcm).
  - destruct (breakeven_unreachable_is_infinite
                Sample.pricing Sample.volume Sample.cogs Sample.opex)
      as [Hret Hshape].
    destruct Hret as [r Hr]; [vm_compute; discriminate|].
    exists r. split; [exact Hr|].
    assert (Hcm : 0 < Breakeven.contribution_margin_per_order r).
    { revert Hr. vm_compute. intros Hr. injection Hr as <-. reflexivity. }
    split; [exact Hcm|].
    exact (proj2 (Hshape r Hr) Hcm).
Defined.

(** ** Sensitivity scenarios *)

Section SensitivityRuns.

Variables (pricing : Pricing.t) (volume : Volume.t) (cogs : Cogs.t) (opex : Opex.t).

Lemma calculate_sensitivity_analysis_returns :
  ~ Cogs.container_lifespan cogs == 0 ->
  exists s, calculate_sensitivity_analysis pricing volume cogs opex = Ok s.
Proof.
  intros H. unfold calculate_sensitivity_analysis.
  destruct (calculate_breakeven_returns pricing volume cogs opex H) as [r0 ->].
  destruct (calculate_breakeven_returns pricing (volume_s1 volume) cogs opex H)
    as [r1 ->].
  destruct (calculate_breakeven_returns pricing volume (cogs_s2 cogs) opex H)
    as [r2 ->].
  destruct (calculate_breakeven_returns (pricing_s3 pricing) volume cogs opex H)
    as [r3 ->].
  destruct (calculate_breakeven_returns pricing (volume_s4 volume) cogs opex H)
    as [r4 ->].
  cbn [bind]. eauto.
Qed.

Lemma calculate_sensitivity_analysis_raise_iff (e : exn) :
  calculate_sensitivity_analysis pricing volume cogs opex = Raise e <->
  calculate_breakeven pricing volume cogs opex = Raise e.
Proof.
  split.
  - intros H. apply calculate_breakeven_raise_iff.
    destruct (Qeq_dec (Cogs.container_lifespan cogs) 0) as [E|E]; [exact E|].
    destruct (calculate_sensitivity_analysis_returns E) as [s Hs]. congruence.
  - intros H. unfold calculate_sensitivity_analysis. now rewrite H.
Qed.

Lemma calculate_sensitivity_analysis_inv (s : Sensitivity.t) :
  calculate_sensitivity_analysis pricing volume cogs opex = Ok s ->
  calculate_breakeven pricing volume cogs opex = Ok (Sensitivity.base s) /\
  calculate_breakeven pricing (volume_s1 volume) cogs opex =
    Ok (Sensitivity.collection_rate_drop s) /\
  calculate_breakeven pricing volume (cogs_s2 cogs) opex =
    Ok (Sensitivity.wash_cost_increase s) /\
  calculate_breakeven (pricing_s3 pricing) volume cogs opex =
    Ok (Sensitivity.per_use_fee_increase s) /\
  calculate_breakeven pricing (volume_s4 volume) cogs opex =
    Ok (Sensitivity.orders_per_day_drop s).
Proof.
  intros H. unfold calculate_sensitivity_analysis in H.
  peel H. injection H as <-. cbn. auto.
Qed.

End SensitivityRuns.

(** C9.  Whatever the base collection rate, the volume dictionary that
    scenario [collection_rate_drop] passes to [calculate_breakeven] has a
    collection rate of at least one half. *)
Theorem collection_rate_drop_floor
  (pricing : Pricing.t) (volume : Volume.t) (cogs : Cogs.t) (opex : Opex.t) :
  (1 # 2) <= Volume.collection_rate (volume_s1 volume) /\
  (forall s : Sensitivity.t,
     calculate_sensitivity_analysis pricing volume cogs opex = Ok s ->
     calculate_breakeven pricing (volume_s1 volume) cogs opex =
       Ok (Sensitivity.collection_rate_drop s)).
Proof.
  split.
  - unfold volume_s1, Volume.set_collection_rate. cbn [Volume.collection_rate].
    apply max_lower_bound.
  - intros s Hs.
    exact (proj1 (proj2 (calculate_sensitivity_analysis_inv _ _ _ _ _ Hs))).
Qed.

Lemma collection_rate_drop_floor_witness :
  (1 # 2) <= Volume.collection_rate
               (volume_s1 (Volume.set_collection_rate Sample.volume (55 # 100))) /\
  exists s,
    calculate_sensitivity_analysis
      Sample.pricing Sample.volume Sample.cogs Sample.opex = Ok s /\
    calculate_breakeven
      Sample.pricing (volume_s1 Sample.volume) Sample.cogs Sample.opex =
      Ok (Sensitivity.collection_rate_drop s).
Proof.
  split.
  - exact (proj1 (collection_rate_drop_floor
                    Sample.pricing
                    (Volume.set_collection_rate Sample.volume (55 # 100))
                    Sample.cogs Sample.opex)).
  - destruct (calculate_sensitivity_analysis_returns
                Sample.pricing Sample.volume Sample.cogs Sample.opex) as [s Hs];
      [vm_compute; discriminate|].
    exists s. split; [exact Hs|].
    exact (proj2 (collection_rate_drop_floor
                    Sample.pricing Sample.volume Sample.cogs Sample.opex) s Hs).
Defined.

(** C6.  [calculate_sensitivity_analysis] returns five break-even results
    (it returns for every bundle whose container lifespan is not zero, and
    raises exactly when the base call to [calculate_breakeven] raises).
    Each is what [calculate_breakeven] returns on a bundle that differs
    from the base bundle in one field at most: none for [base]; the
    collection rate, set to the larger of 0.5 and the base rate less 0.10;
    the wash cost, multiplied by 1.20; the per-use fee, raised by 0.50;
    the orders per day, set to 40. *)
Theorem sensitivity_scenarios
  (pricing : Pricing.t) (volume : Volume.t) (cogs : Cogs.t) (opex : Opex.t) :
  (~ Cogs.container_lifespan cogs == 0 ->
   exists s, calculate_sensitivity_analysis pricing volume cogs opex = Ok s) /\
  (calculate_sensitivity_analysis pricing volume cogs opex = Raise ZeroDivisionError <->
   calculate_breakeven pricing volume cogs opex = Raise ZeroDivisionError) /\
  (forall s : Sensitivity.t,
     calculate_sensitivity_analysis pricing volume cogs opex = Ok s ->
     calculate_breakeven pricing volume cogs opex = Ok (Sensitivity.base s) /\
     (exists v1 : Volume.t,
        calculate_breakeven pricing v1 cogs opex =
          Ok (Sensitivity.collection_rate_drop s) /\
        Volume.collection_rate v1 ==
          Qmax (1 # 2) (Volume.collection_rate volume - (1 # 10)) /\
        Volume.restaurants v1 = Volume.restaurants volume /\
        Volume.new_restaurants v1 = Volume.new_restaurants volume /\
        Volume.orders_per_day v1 = Volume.orders_per_day volume /\
        Volume.operating_days v1 = Volume.operating_days volume /\
        Volume.shrinkage v1 = Volume.shrinkage volume /\
        Volume.zomato_orders_per_day v1 = Volume.zomato_orders_per_day volume /\
        Volume.zomato_operating_days v1 = Volume.zomato_operating_days volume) /\
     (exists c2 : Cogs.t,
        calculate_breakeven pricing volume c2 opex =
          Ok (Sensitivity.wash_cost_increase s) /\
        Cogs.wash_cost c2 = Cogs.wash_cost cogs * (6 # 5) /\
        Cogs.container_cost c2 = Cogs.container_cost cogs /\
        Cogs.container_lifespan c2 = Cogs.container_lifespan cogs /\
        Cogs.collection_cost c2 = Cogs.collection_cost cogs /\
        Cogs.qc_batch_cost c2 = Cogs.qc_batch_cost cogs /\
        Cogs.batches_per_month c2 = Cogs.batches_per_month cogs) /\
     (exists p3 : Pricing.t,
        calculate_breakeven p3 volume cogs opex =
          Ok (Sensitivity.per_use_fee_increase s) /\
        Pricing.per_use_fee p3 = Pricing.per_use_fee pricing + (1 # 2) /\
        Pricing.container_price p3 = Pricing.container_price pricing /\
        Pricing.monthly_fee p3 = Pricing.monthly_fee pricing /\
        Pricing.setup_fee p3 = Pricing.setup_fee pricing /\
        Pricing.deposit p3 = Pricing.deposit pricing /\
        Pricing.incentive p3 = Pricing.incentive pricing /\
        Pricing.green_fee p3 = Pricing.green_fee pricing /\
        Pricing.revenue_share_pct p3 = Pricing.revenue_share_pct pricing) /\
     (exists v4 : Volume.t,
        calculate_breakeven pricing v4 cogs opex =
          Ok (Sensitivity.orders_per_day_drop s) /\
        Volume.orders_per_day v4 = 40 /\
        Volume.restaurants v4 = Volume.restaurants volume /\
        Volume.new_restaurants v4 = Volume.new_restaurants volume /\
        Volume.operating_days v4 = Volume.operating_days volume /\
        Volume.collection_rate v4 = Volume.collection_rate volume /\
        Volume.shrinkage v4 = Volume.shrinkage volume /\
        Volume.zomato_orders_per_day v4 = Volume.zomato_orders_per_day volume /\
        Volume.zomato_operating_days v4 = Volume.zomato_operating_days volume)).
Proof.
  split; [apply calculate_sensitivity_analysis_returns|].
  split; [apply calculate_sensitivity_analysis_raise_iff|].
  intros s Hs.
  destruct (calculate_sensitivity_analysis_inv _ _ _ _ _ Hs)
    as (H0 & H1 & H2 & H3 & H4).
  split; [exact H0|]. split.
  { exists (volume_s1 volume). split; [exact H1|]. split.
    - apply max_is_Qmax.
    - cbn. repeat split. }
  split.
  { exists (cogs_s2 cogs). split; [exact H2|]. cbn. repeat split. }
  split.
  { exists (pricing_s3 pricing). split; [exact H3|]. cbn. repeat split. }
  exists (volume_s4 volume). split; [exact H4|]. cbn. repeat split.
Qed.

Lemma sensitivity_scenarios_witness :
  exists s,
    calculate_sensitivity_analysis
      Sample.pricing Sample.volume Sample.cogs Sample.opex = Ok s /\
    calculate_breakeven Sample.pricing Sample.volume Sample.cogs Sample.opex =
      Ok (Sensitivity.base s).
Proof.
  destruct (sensitivity_scenarios
              Sample.pricing Sample.volume Sample.cogs Sample.opex)
    as (Hret & _ & Hinv).
  destruct Hret as [s Hs]; [vm_compute; discriminate|].
  exists s. split; [exact Hs|].
  exact (proj1 (Hinv s Hs)).
Defined.

(** ** Chart sampling *)

Lemma int_truncates (x : Q) : Qabs (inject_Z (Py.int x) - x) < 1.
Proof.
  apply Qabs_Qlt_condition.
  destruct x as [n d]. unfold Py.int. cbn [Qnum Qden].
  pose proof (Z.quot_rem' n (Zpos d)) as Hq.
  pose proof (Z.rem_bound_abs n (Zpos d) ltac:(lia)) as Hr.
  unfold Qlt, Qminus, Qplus, Qopp, inject_Z. cbn [Qnum Qden].
  split; nia.
Qed.

Lemma last_sample_close (x : Q) (step last : Z) :
  step = (Py.int x / 20)%Z -> last = (20 * step)%Z ->
  Qabs (inject_Z last - x) < 20 /\
  ((20 <= step)%Z -> Qabs (inject_Z last - x) <= inject_Z step).
Proof.
  intros Hs Hl.
  pose proof (int_truncates x) as Ht. apply Qabs_Qlt_condition in Ht.
  pose proof (Z.div_mod (Py.int x) 20 ltac:(lia)) as Hd.
  pose proof (Z.mod_pos_bound (Py.int x) 20 ltac:(lia)) as Hm.
  assert (Hlo : inject_Z last <= inject_Z (Py.int x)) by (rewrite <- Zle_Qle; lia).
  assert (Hhi : inject_Z (Py.int x) <= inject_Z last + 19).
  { replace 19 with (inject_Z 19) by reflexivity.
    rewrite <- inject_Z_plus, <- Zle_Qle. lia. }
  assert (Hclose : Qabs (inject_Z last - x) < 20)
    by (apply Qabs_Qlt_condition; lra).
  split; [exact Hclose|].
  intros Hbig. apply Qlt_le_weak. eapply Qlt_le_trans; [exact Hclose|].
  replace 20 with (inject_Z 20) by reflexivity. now rewrite <- Zle_Qle.
Qed.

Lemma range_length (n : nat) : length (range n) = n.
Proof. unfold range. now rewrite length_map, length_seq. Qed.

Lemma nth_map_range (f : Z -> Z) (n i : nat) (d : Z) :
  (i < n)%nat -> nth i (map f (range n)) d = f (Z.of_nat i).
Proof.
  intros H. unfold range. rewrite map_map.
  rewrite (nth_indep _ d (f (Z.of_nat 0))) by now rewrite length_map, length_seq.
  rewrite (map_nth (fun k => f (Z.of_nat k))), seq_nth by exact H. reflexivity.
Qed.

Lemma last_map_range (f : Z -> Z) (n : nat) (d : Z) :
  last (map f (range (S n))) d = f (Z.of_nat n).
Proof.
  unfold range. rewrite seq_S, !map_app. cbn [map Nat.add]. apply last_last.
Qed.

Lemma generate_breakeven_chart_data_returns
  (pricing : Pricing.t) (volume : Volume.t) (cogs : Cogs.t) (opex : Opex.t)
  (year3_orders : Q) :
  ~ Cogs.container_lifespan cogs == 0 ->
  exists d,
    generate_breakeven_chart_data pricing volume cogs opex year3_orders = Ok d.
Proof.
  intros H. unfold generate_breakeven_chart_data.
  destruct (calculate_breakeven_returns pricing volume cogs opex H) as [r ->].
  cbn [bind]. cbv zeta. unfold floordiv.
  cbn [Z.of_nat Z.eqb Pos.of_succ_nat Pos.succ bind]. eauto.
Qed.

(** C7, amended.  The chart's order range has 21 entries and starts at 0;
    its last entry lies less than 20 orders away from 1.5 times the
    reference order count, hence within one step whenever the step size is
    at least 20. *)
Theorem chart_orders_range
  (pricing : Pricing.t) (volume : Volume.t) (cogs : Cogs.t) (opex : Opex.t)
  (year3_orders : Q) :
  (~ Cogs.container_lifespan cogs == 0 ->
   exists d,
     generate_breakeven_chart_data pricing volume cogs opex year3_orders = Ok d) /\
  (forall d : Chart.t,
     generate_breakeven_chart_data pricing volume cogs opex year3_orders = Ok d ->
     length (Chart.orders_range d) = 21%nat /\
     nth 0 (Chart.orders_range d) 0%Z = 0%Z /\
     Qabs (inject_Z (last (Chart.orders_range d) 0%Z) - (3 # 2) * year3_orders) < 20 /\
     ((20 <= nth 1 (Chart.orders_range d) 0)%Z ->
      Qabs (inject_Z (last (Chart.orders_range d) 0%Z) - (3 # 2) * year3_orders)
      <= inject_Z (nth 1 (Chart.orders_range d) 0%Z))).
Proof.
  split; [apply generate_breakeven_chart_data_returns|].
  intros d H. unfold generate_breakeven_chart_data in H.
  apply bind_ok_inv in H. destruct H as (r & _ & H).
  cbv zeta in H. unfold floordiv in H.
  cbn [Z.of_nat Z.eqb Pos.of_succ_nat Pos.succ bind] in H.
  set (step := (Py.int (year3_orders * (3 # 2)) / 20)%Z) in H.
  assert (Hd : Chart.orders_range d = map (fun i => (i * step)%Z) (range 21)).
  { symmetry.
    exact (f_equal (fun x => match x with
                             | Ok a => Chart.orders_range a
                             | Raise _ => nil
                             end) H). }
  rewrite Hd.
  rewrite length_map, range_length, last_map_range.
  rewrite !nth_map_range by lia.
  split; [reflexivity|]. split; [reflexivity|].
  assert (E : (3 # 2) * year3_orders == year3_orders * (3 # 2)) by ring.
  rewrite E. change (Z.of_nat 1) with 1%Z. rewrite Z.mul_1_l.
  apply last_sample_close; reflexivity.
Qed.

Lemma chart_orders_range_witness :
  exists d,
    generate_breakeven_chart_data
      Sample.pricing Sample.volume Sample.cogs Sample.opex 7500000 = Ok d /\
    nth 1 (Chart.orders_range d) 0%Z = 562500%Z /\
    last (Chart.orders_range d) 0%Z = 11250000%Z /\
    Qabs (inject_Z (last (Chart.orders_range d) 0%Z) - (3 # 2) * 7500000)
    <= inject_Z (nth 1 (Chart.orders_range d) 0%Z).
Proof.
  destruct (chart_orders_range
              Sample.pricing Sample.volume Sample.cogs Sample.opex 7500000)
    as [Hret Hshape].
  destruct Hret as [d Hd]; [vm_compute; discriminate|].
  exists d. split; [exact Hd|].
  destruct (Hshape d Hd) as (_ & _ & _ & Hstep).
  assert (Hl : Chart.orders_range d =
               map (fun i => (i * 562500)%Z) (range 21)).
  { symmetry.
    exact (f_equal (fun x => match x with
                             | Ok a => Chart.orders_range a
                             | Raise _ => nil
                             end) Hd). }
  assert (H1 : nth 1 (Chart.orders_range d) 0%Z = 562500%Z)
    by (rewrite Hl; reflexivity).
  split; [exact H1|].
  split; [rewrite Hl; reflexivity|].
  apply Hstep. rewrite H1. vm_compute. discriminate.
Defined.

(** C7 as stated fails for a small reference order count: with a
    reference of 10 orders the step size is 15 // 20 = 0, every sample is
    0, and the last one is 15 orders away from 1.5 x 10, more than one
    step. *)
Lemma chart_last_point_misses_small_reference :
  exists d,
    generate_breakeven_chart_data
      Sample.pricing Sample.volume Sample.cogs Sample.opex 10 = Ok d /\
    length (Chart.orders_range d) = 21%nat /\
    nth 1 (Chart.orders_range d) 0%Z = 0%Z /\
    last (Chart.orders_range d) 0%Z = 0%Z /\
    ~ Qabs (inject_Z (last (Chart.orders_range d) 0%Z) - (3 # 2) * 10)
      <= inject_Z (nth 1 (Chart.orders_range d) 0%Z).
Proof.
  eexists. split; [vm_compute; reflexivity|].
  cbn [Chart.orders_range]. repeat split.
  intros H. vm_compute in H. apply H. reflexivity.
Qed.

(** ** Division by zero *)




(** ** Zero denominators *)




(** ** Fixed costs and the sign of the break-even point *)

Lemma depreciation_magnitude (volume : Volume.t) (restaurants : Q) :
  Qabs (Other.depreciation (calculate_other_items volume restaurants)) = 2500000 \/
  Qabs (Other.depreciation (calculate_other_items volume restaurants)) = 6000000 \/
  Qabs (Other.depreciation (calculate_other_items volume restaurants)) = 14500000.
Proof.
  unfold calculate_other_items. cbn [Other.depreciation].
  destruct (ltb _ 365); [now left|].
  destruct (ltb _ 2000); [right; now left | right; now right].
Qed.

Lemma total_opex_nonneg (opex : Opex.t) (volume : Volume.t) :
  0 <= Opex.technology opex -> 0 <= Opex.marketing opex -> 0 <= Opex.ga opex ->
  0 <= Opex.num_sales_people opex -> 0 <= Opex.avg_salary opex ->
  0 <= Opex.num_hubs opex -> 0 <= Opex.rent_per_hub opex ->
  0 <= Opex.utilities_per_hub opex -> 0 <= Opex.workers_per_hub opex ->
  0 <= Opex.worker_salary opex ->
  0 <= Volume.operating_days volume ->
  0 <= OpexCalc.total_opex (calculate_opex opex volume).
Proof.
  intros Ht Hm Hg Hn Hs Hh Hr Hu Hw Hws Hd.
  unfold calculate_opex. cbn [OpexCalc.total_opex].
  assert (Hmo : 0 <= Volume.operating_days volume / 30)
    by (apply Qle_shift_div_l; lra).
  pose proof (Qmult_le_0_compat _ _ Hn Hs).
  pose proof (Qmult_le_0_compat _ _ (Qmult_le_0_compat _ _ Hh Hr) Hmo).
  pose proof (Qmult_le_0_compat _ _ (Qmult_le_0_compat _ _ Hh Hu) Hmo).
  pose proof (Qmult_le_0_compat _ _
                (Qmult_le_0_compat _ _ (Qmult_le_0_compat _ _ Hh Hw) Hws) Hmo).
  lra.
Qed.

(** C10, amended.  The annual fixed costs returned by [calculate_breakeven]
    are the total OpEx plus the magnitude of the tier depreciation, which
    is 2,500,000, 6,000,000 or 14,500,000; they are at least the total
    OpEx plus 2,500,000.  When the OpEx assumptions and the number of
    operating days are non-negative the fixed costs are strictly positive,
    and so is [breakeven_orders] whenever it is finite. *)
Theorem fixed_costs_floor
  (pricing : Pricing.t) (volume : Volume.t) (cogs : Cogs.t) (opex : Opex.t)
  (r : Breakeven.t) :
  calculate_breakeven pricing volume cogs opex = Ok r ->
  Breakeven.fixed_costs_annual r =
    OpexCalc.total_opex (calculate_opex opex volume) +
    Qabs (Other.depreciation
            (calculate_other_items volume (Volume.restaurants volume))) /\
  (Qabs (Other.depreciation
           (calculate_other_items volume (Volume.restaurants volume))) = 2500000 \/
   Qabs (Other.depreciation
           (calculate_other_items volume (Volume.restaurants volume))) = 6000000 \/
   Qabs (Other.depreciation
           (calculate_other_items volume (Volume.restaurants volume))) = 14500000) /\
  OpexCalc.total_opex (calculate_opex opex volume) + 2500000
    <= Breakeven.fixed_costs_annual r /\
  (0 <= Opex.technology opex -> 0 <= Opex.marketing opex -> 0 <= Opex.ga opex ->
   0 <= Opex.num_sales_people opex -> 0 <= Opex.avg_salary opex ->
   0 <= Opex.num_hubs opex -> 0 <= Opex.rent_per_hub opex ->
   0 <= Opex.utilities_per_hub opex -> 0 <= Opex.workers_per_hub opex ->
   0 <= Opex.worker_salary opex ->
   0 <= Volume.operating_days volume ->
   0 < Breakeven.fixed_costs_annual r /\
   forall q : Q, Breakeven.breakeven_orders r = Fin q -> 0 < q).
Proof.
  intros Hr.
  pose proof (breakeven_fixed_costs _ _ _ _ _ Hr) as Hf.
  pose proof (depreciation_magnitude volume (Volume.restaurants volume)) as Hd.
  split; [exact Hf|]. split; [exact Hd|].
  assert (Hfloor : OpexCalc.total_opex (calculate_opex opex volume) + 2500000
                   <= Breakeven.fixed_costs_annual r).
  { rewrite Hf. destruct Hd as [-> | [-> | ->]]; lra. }
  split; [exact Hfloor|].
  intros Ht Hm Hg Hn Hs Hh Hrent Hu Hw Hws Hdays.
  pose proof (total_opex_nonneg opex volume Ht Hm Hg Hn Hs Hh Hrent Hu Hw Hws Hdays).
  assert (Hpos : 0 < Breakeven.fixed_costs_annual r) by lra.
  split; [exact Hpos|].
  intros q Hq. rewrite (breakeven_orders_cases _ _ _ _ _ Hr) in Hq.
  destruct (ltb 0 _) eqn:G; [|discriminate].
  apply ltb_true_iff in G. injection Hq as <-.
  apply Qlt_shift_div_l; [exact G | lra].
Qed.

Lemma fixed_costs_floor_witness :
  exists r,
    calculate_breakeven Sample.pricing Sample.volume Sample.cogs Sample.opex = Ok r /\
    0 < Breakeven.fixed_costs_annual r /\
    forall q : Q, Breakeven.breakeven_orders r = Fin q -> 0 < q.
Proof.
  destruct (calculate_breakeven_returns
              Sample.pricing Sample.volume Sample.cogs Sample.opex) as [r Hr];
    [vm_compute; discriminate|].
  exists r. split; [exact Hr|].
  destruct (fixed_costs_floor
              Sample.pricing Sample.volume Sample.cogs Sample.opex r Hr)
    as (_ & _ & _ & Hpos).
  apply Hpos; vm_compute; discriminate.
Defined.

(** C10 as stated asks only for non-negative OpEx assumptions.  With
    those of the sample bundle, a per-use fee of 5 and -600 operating days
    the facility costs are negative: the fixed costs come out at
    -5,500,000 and the finite [breakeven_orders] is negative. *)
Lemma negative_operating_days_break_positivity :
  (0 <= Opex.technology Sample.opex /\ 0 <= Opex.marketing Sample.opex /\
   0 <= Opex.ga Sample.opex /\ 0 <= Opex.num_sales_people Sample.opex /\
   0 <= Opex.avg_salary Sample.opex /\ 0 <= Opex.num_hubs Sample.opex /\
   0 <= Opex.rent_per_hub Sample.opex /\ 0 <= Opex.utilities_per_hub Sample.opex /\
   0 <= Opex.workers_per_hub Sample.opex /\ 0 <= Opex.worker_salary Sample.opex) /\
  exists r,
    calculate_breakeven
      (Pricing.set_per_use_fee Sample.pricing 5)
      (Volume.mk 500 100 50 (- 600) (9 # 10) (5 # 100) 0 0)
      Sample.cogs Sample.opex = Ok r /\
    Breakeven.fixed_costs_annual r == - 5500000 /\
    exists q, Breakeven.breakeven_orders r = Fin q /\ q < 0.
Proof.
  split.
  - repeat split; vm_compute; discriminate.
  - eexists. split; [vm_compute; reflexivity|].
    split; [reflexivity|].
    eexists. split; reflexivity.
Qed.

(** ** Monotonicity of the break-even point *)

(** C8, amended.  Of two break-even computations with the same, positive
    annual fixed costs, the one with the larger contribution margin has
    the strictly smaller [breakeven_orders], provided that larger margin
    is positive (a margin that is not positive gives [+inf]). *)
Theorem breakeven_orders_decrease_with_margin
  (pricing1 pricing2 : Pricing.t) (volume1 volume2 : Volume.t)
  (cogs1 cogs2 : Cogs.t) (opex1 opex2 : Opex.t) (r1 r2 : Breakeven.t) :
  calculate_breakeven pricing1 volume1 cogs1 opex1 = Ok r1 ->
  calculate_breakeven pricing2 volume2 cogs2 opex2 = Ok r2 ->
  Breakeven.fixed_costs_annual r1 == Breakeven.fixed_costs_annual r2 ->
  0 < Breakeven.fixed_costs_annual r1 ->
  Breakeven.contribution_margin_per_order r1 <
    Breakeven.contribution_margin_per_order r2 ->
  0 < Breakeven.contribution_margin_per_order r2 ->
  float_lt (Breakeven.breakeven_orders r2) (Breakeven.breakeven_orders r1).
Proof.
  intros H1 H2 Hfix Hpos Hlt Hcm2.
  rewrite (breakeven_orders_cases _ _ _ _ _ H1).
  rewrite (breakeven_orders_cases _ _ _ _ _ H2).
  apply ltb_true_iff in Hcm2. rewrite Hcm2. apply ltb_true_iff in Hcm2.
  destruct (ltb 0 (Breakeven.contribution_margin_per_order r1)) eqn:G;
    [|exact I].
  apply ltb_true_iff in G. cbn [float_lt].
  set (f1 := Breakeven.fixed_costs_annual r1) in *.
  set (f2 := Breakeven.fixed_costs_annual r2) in *.
  set (m1 := Breakeven.contribution_margin_per_order r1) in *.
  set (m2 := Breakeven.contribution_margin_per_order r2) in *.
  apply Qlt_shift_div_r; [exact Hcm2|].
  assert (Hk : 0 < f1 / m1) by (apply Qlt_shift_div_l; lra).
  assert (Hm : f1 / m1 * m1 == f1) by (field; lra).
  assert (Hs : f1 / m1 * m1 < f1 / m1 * m2)
    by (apply Qmult_lt_l; assumption).
  lra.
Qed.

Lemma breakeven_orders_decrease_with_margin_witness :
  exists r1 r2,
    calculate_breakeven Sample.pricing Sample.volume Sample.cogs Sample.opex
      = Ok r1 /\
    calculate_breakeven (pricing_s3 Sample.pricing) Sample.volume Sample.cogs
      Sample.opex = Ok r2 /\
    float_lt (Breakeven.breakeven_orders r2) (Breakeven.breakeven_orders r1).
Proof.
  destruct (calculate_breakeven_returns
              Sample.pricing Sample.volume Sample.cogs Sample.opex) as [r1 Hr1];
    [vm_compute; discriminate|].
  destruct (calculate_breakeven_returns
              (pricing_s3 Sample.pricing) Sample.volume Sample.cogs Sample.opex)
    as [r2 Hr2]; [vm_compute; discriminate|].
  exists r1, r2. split; [exact Hr1|]. split; [exact Hr2|].
  apply (breakeven_orders_decrease_with_margin _ _ _ _ _ _ _ _ r1 r2 Hr1 Hr2).
  all: revert Hr1 Hr2; vm_compute; intros Hr1 Hr2;
    injection Hr1 as <-; injection Hr2 as <-; reflexivity.
Defined.

(** C8 as stated fails when neither margin is positive: with a per-use
    fee of 0 and of 0.5 the sample bundle has the same fixed costs and
    margins of about -1.28 and -0.78, and [breakeven_orders] is [+inf] in
    both computations. *)
Lemma breakeven_orders_flat_without_margin :
  exists r1 r2,
    calculate_breakeven (Pricing.set_per_use_fee Sample.pricing 0)
      Sample.volume Sample.cogs Sample.opex = Ok r1 /\
    calculate_breakeven (Pricing.set_per_use_fee Sample.pricing (1 # 2))
      Sample.volume Sample.cogs Sample.opex = Ok r2 /\
    Breakeven.fixed_costs_annual r1 == Breakeven.fixed_costs_annual r2 /\
    Breakeven.contribution_margin_per_order r1 <
      Breakeven.contribution_margin_per_order r2 /\
    Breakeven.breakeven_orders r1 = PInf /\
    Breakeven.breakeven_orders r2 = PInf /\
    ~ float_lt (Breakeven.breakeven_orders r2) (Breakeven.breakeven_orders r1).
Proof.
  eexists. eexists.
  split; [vm_compute; reflexivity|].
  split; [vm_compute; reflexivity|].
  split; [reflexivity|].
  split; [reflexivity|].
  split; [reflexivity|].
  split; [reflexivity|].
  intros H. exact H.
Qed.

(** The positivity of the fixed costs cannot be dropped either: with -600
    operating days the sample bundle has fixed costs of -5,500,000, and
    raising the per-use fee from 5 to 5.5 raises both the margin and the
    (negative) [breakeven_orders]. *)
Lemma breakeven_orders_increase_under_negative_fixed_costs :
  exists r1 r2 q1 q2,
    calculate_breakeven
      (Pricing.set_per_use_fee Sample.pricing 5)
      (Volume.mk 500 100 50 (- 600) (9 # 10) (5 # 100) 0 0)
      Sample.cogs Sample.opex = Ok r1 /\
    calculate_breakeven
      (Pricing.set_per_use_fee Sample.pricing (11 # 2))
      (Volume.mk 500 100 50 (- 600) (9 # 10) (5 # 100) 0 0)
      Sample.cogs Sample.opex = Ok r2 /\
    Breakeven.fixed_costs_annual r1 == Breakeven.fixed_costs_annual r2 /\
    0 < Breakeven.contribution_margin_per_order r1 /\
    Breakeven.contribution_margin_per_order r1 <
      Breakeven.contribution_margin_per_order r2 /\
    Breakeven.breakeven_orders r1 = Fin q1 /\
    Breakeven.breakeven_orders r2 = Fin q2 /\
    q1 < q2.
Proof.
  do 4 eexists.
  split; [vm_compute; reflexivity|].
  split; [vm_compute; reflexivity|].
  repeat split.
Qed.

(** * Further properties

    Properties of the same functions beyond the claims above, and of
    [track_change]. *)

Lemma truediv_ok_inv (a b q : Q) : truediv a b = Ok q -> q = a / b /\ ~ b == 0.
Proof.
  unfold truediv. destruct (Qeq_bool b 0) eqn:E; [discriminate|].
  intros H. injection H as <-. split; [reflexivity|].
  intros Hb. apply Qeq_bool_iff in Hb. congruence.
Qed.

Section BreakevenFields.

Variables (pricing : Pricing.t) (volume : Volume.t) (cogs : Cogs.t) (opex : Opex.t).
Variable r : Breakeven.t.
Hypothesis Hr : calculate_breakeven pricing volume cogs opex = Ok r.

Lemma breakeven_lifespan_nonzero : ~ Cogs.container_lifespan cogs == 0.
Proof.
  intros H. apply (calculate_breakeven_raise_iff pricing volume cogs opex ZeroDivisionError) in H.
  congruence.
Qed.

Lemma breakeven_variable_cost :
  Breakeven.variable_cost_per_order r =
  Cogs.container_cost cogs / Cogs.container_lifespan cogs +
  Cogs.wash_cost cogs * Volume.collection_rate volume +
  Cogs.collection_cost cogs.
Proof.
  pose proof Hr as H. unfold calculate_breakeven in H. cbv zeta in H.
  peel H. injection H as <-. cbn [Breakeven.variable_cost_per_order].
  apply truediv_ok_inv in E. destruct E as [-> _]. reflexivity.
Qed.

Lemma breakeven_revenue_per_order :
  Breakeven.revenue_per_order r =
  let total :=
    Volume.restaurants volume * Volume.orders_per_day volume *
    Volume.operating_days volume in
  let recurring :=
    if ltb 0 (Volume.orders_per_day volume) && ltb 0 (Volume.operating_days volume)
       && ltb 0 total
    then Pricing.per_use_fee pricing +
         (Volume.restaurants volume * Pricing.monthly_fee pricing *
          (Volume.operating_days volume / 30) / total +
          Volume.new_restaurants volume * Pricing.setup_fee pricing / total +
          Pricing.deposit pricing * Volume.shrinkage volume)
    else Pricing.per_use_fee pricing in
  let channel :=
    total + Volume.zomato_orders_per_day volume * Volume.zomato_operating_days volume in
  if ltb 0 (Volume.zomato_orders_per_day volume) &&
     ltb 0 (Volume.zomato_operating_days volume) && ltb 0 channel
  then recurring +
       Volume.zomato_orders_per_day volume * Volume.zomato_operating_days volume *
       Pricing.green_fee pricing * Pricing.revenue_share_pct pricing / channel
  else recurring.
Proof.
  pose proof Hr as H. unfold calculate_breakeven in H. cbv zeta in H.
  peel H. injection H as <-. cbn [Breakeven.revenue_per_order]. cbv zeta.
  clear E2 E3 E4 Hr.
  assert (Hx0 : x0 =
    if ltb 0 (Volume.orders_per_day volume) && ltb 0 (Volume.operating_days volume)
       && ltb 0 (Volume.restaurants volume * Volume.orders_per_day volume *
                 Volume.operating_days volume)
    then Pricing.per_use_fee pricing +
         (Volume.restaurants volume * Pricing.monthly_fee pricing *
          (Volume.operating_days volume / 30) /
          (Volume.restaurants volume * Volume.orders_per_day volume *
           Volume.operating_days volume) +
          Volume.new_restaurants volume * Pricing.setup_fee pricing /
          (Volume.restaurants volume * Volume.orders_per_day volume *
           Volume.operating_days volume) +
          Pricing.deposit pricing * Volume.shrinkage volume)
    else Pricing.per_use_fee pricing).
  { destruct (_ && _) in E0 |- *; cbn [andb]; [|now injection E0].
    destruct (ltb 0 _) eqn:G in E0 |- *; [|now injection E0].
    rewrite !(truediv_guarded _ _ G) in E0. cbn [bind] in E0. now injection E0. }
  rewrite <- Hx0. clear Hx0 E0.
  destruct (_ && _) in E1 |- *; cbn [andb]; [|now injection E1].
  destruct (ltb 0 _) eqn:G in E1 |- *; [|now injection E1].
  rewrite !(truediv_guarded _ _ G) in E1. cbn [bind] in E1. now injection E1.
Qed.

End BreakevenFields.

(** ** Income statement: further properties *)

Lemma eq_implies_Qeq (a b : Q) : a = b -> a == b.
Proof. intros ->. reflexivity. Qed.

Lemma statement_parts
  (pricing : Pricing.t) (volume : Volume.t) (cogs : Cogs.t) (opex : Opex.t)
  (s : IncomeStatement.t) :
  calculate_full_income_statement pricing volume cogs opex = Ok s ->
  IncomeStatement.revenue s = calculate_revenue pricing volume /\
  calculate_cogs cogs volume (Revenue.total_orders (calculate_revenue pricing volume))
    = Ok (IncomeStatement.cogs s) /\
  IncomeStatement.opex s = calculate_opex opex volume /\
  IncomeStatement.other s = calculate_other_items volume (Volume.restaurants volume) /\
  IncomeStatement.gross_profit s =
    Revenue.total_revenue (calculate_revenue pricing volume) -
    CogsCalc.total_cogs (IncomeStatement.cogs s) /\
  IncomeStatement.ebitda s =
    IncomeStatement.gross_profit s - OpexCalc.total_opex (calculate_opex opex volume) /\
  IncomeStatement.net_income s =
    IncomeStatement.ebitda s +
    Other.depreciation (calculate_other_items volume (Volume.restaurants volume)) +
    Other.interest (calculate_other_items volume (Volume.restaurants volume)).
Proof.
  intros H. unfold calculate_full_income_statement in H. cbv zeta in H.
  peel H. injection H as <-.
  cbn [IncomeStatement.revenue IncomeStatement.cogs IncomeStatement.opex
       IncomeStatement.other IncomeStatement.gross_profit IncomeStatement.ebitda
       IncomeStatement.net_income].
  rewrite E. repeat split.
Qed.

Lemma statement_margins
  (pricing : Pricing.t) (volume : Volume.t) (cogs : Cogs.t) (opex : Opex.t)
  (s : IncomeStatement.t) :
  calculate_full_income_statement pricing volume cogs opex = Ok s ->
  0 < Revenue.total_revenue (IncomeStatement.revenue s) ->
  IncomeStatement.gross_margin s =
    IncomeStatement.gross_profit s /
    Revenue.total_revenue (IncomeStatement.revenue s) * 100 /\
  IncomeStatement.ebitda_margin s =
    IncomeStatement.ebitda s /
    Revenue.total_revenue (IncomeStatement.revenue s) * 100 /\
  IncomeStatement.net_margin s =
    IncomeStatement.net_income s /
    Revenue.total_revenue (IncomeStatement.revenue s) * 100.
Proof.
  intros H Hpos. unfold calculate_full_income_statement in H. cbv zeta in H.
  peel H. injection H as <-.
  cbn [IncomeStatement.revenue IncomeStatement.gross_margin
       IncomeStatement.ebitda_margin IncomeStatement.net_margin
       IncomeStatement.gross_profit IncomeStatement.ebitda
       IncomeStatement.net_income] in *.
  apply ltb_true_iff in Hpos. rewrite Hpos in E0, E1, E2.
  rewrite (truediv_guarded _ _ Hpos) in E0.
  rewrite (truediv_guarded _ _ Hpos) in E1.
  rewrite (truediv_guarded _ _ Hpos) in E2. cbn [bind] in E0, E1, E2.
  injection E0 as <-. injection E1 as <-. injection E2 as <-. repeat split.
Qed.

Lemma other_items_net_cost (volume : Volume.t) (restaurants : Q) :
  Other.depreciation (calculate_other_items volume restaurants) +
  Other.interest (calculate_other_items volume restaurants) < 0.
Proof.
  unfold calculate_other_items. cbn [Other.depreciation Other.interest].
  destruct (ltb _ 365); [reflexivity|]. destruct (ltb _ 2000); reflexivity.
Qed.

(** X1.  Depreciation and interest together always cost: the net income
    of a returned statement lies below its EBITDA, by 2,250,000, 5,500,000
    or 13,000,000 according to the tier. *)
Theorem net_income_below_ebitda
  (pricing : Pricing.t) (volume : Volume.t) (cogs : Cogs.t) (opex : Opex.t)
  (s : IncomeStatement.t) :
  calculate_full_income_statement pricing volume cogs opex = Ok s ->
  IncomeStatement.net_income s < IncomeStatement.ebitda s /\
  (IncomeStatement.ebitda s - IncomeStatement.net_income s == 2250000 \/
   IncomeStatement.ebitda s - IncomeStatement.net_income s == 5500000 \/
   IncomeStatement.ebitda s - IncomeStatement.net_income s == 13000000).
Proof.
  intros H. destruct (statement_parts _ _ _ _ _ H) as (_ & _ & _ & _ & _ & _ & Hn).
  rewrite Hn. unfold calculate_other_items. cbn [Other.depreciation Other.interest].
  destruct (ltb _ 365); [split; [lra | left; ring]|].
  destruct (ltb _ 2000); (split; [lra|]); [right; left; ring | right; right; ring].
Qed.

Lemma net_income_below_ebitda_witness :
  exists s,
    calculate_full_income_statement
      Sample.pricing Sample.volume Sample.cogs Sample.opex = Ok s /\
    IncomeStatement.net_income s < IncomeStatement.ebitda s.
Proof.
  destruct (calculate_full_income_statement_returns
              Sample.pricing Sample.volume Sample.cogs Sample.opex) as [s Hs];
    [vm_compute; discriminate|].
  exists s. split; [exact Hs|].
  exact (proj1 (net_income_below_ebitda _ _ _ _ s Hs)).
Defined.

(** X2.  With a positive total revenue the three margins are ordered as
    the profits are: the net margin is below the EBITDA margin; the EBITDA
    margin is at most the gross margin when the total OpEx is not
    negative; the gross margin is at most 100 when the total COGS is not
    negative. *)
Theorem margins_ordered
  (pricing : Pricing.t) (volume : Volume.t) (cogs : Cogs.t) (opex : Opex.t)
  (s : IncomeStatement.t) :
  calculate_full_income_statement pricing volume cogs opex = Ok s ->
  0 < Revenue.total_revenue (IncomeStatement.revenue s) ->
  IncomeStatement.net_margin s < IncomeStatement.ebitda_margin s /\
  (0 <= OpexCalc.total_opex (IncomeStatement.opex s) ->
   IncomeStatement.ebitda_margin s <= IncomeStatement.gross_margin s) /\
  (0 <= CogsCalc.total_cogs (IncomeStatement.cogs s) ->
   IncomeStatement.gross_margin s <= 100).
Proof.
  intros H Hpos.
  destruct (statement_margins _ _ _ _ _ H Hpos) as (-> & -> & ->).
  destruct (statement_parts _ _ _ _ _ H) as (Hrev & _ & Hox & _ & Hgp & Heb & Hn).
  rewrite <- Hox in Heb. rewrite <- Hrev in Hgp.
  apply eq_implies_Qeq in Heb. apply eq_implies_Qeq in Hgp.
  apply eq_implies_Qeq in Hn.
  pose proof (other_items_net_cost volume (Volume.restaurants volume)) as Hcost.
  assert (Hlt : IncomeStatement.net_income s < IncomeStatement.ebitda s) by lra.
  set (rev := Revenue.total_revenue (IncomeStatement.revenue s)) in *.
  assert (Hinv : 0 < / rev) by now apply Qinv_lt_0_compat.
  unfold Qdiv. split; [|split].
  - apply Qmult_lt_compat_r; [reflexivity|].
    apply Qmult_lt_compat_r; assumption.
  - intros Hop. apply Qmult_le_compat_r; [|discriminate].
    apply Qmult_le_compat_r; [lra | lra].
  - intros Hcg.
    assert (E : 100 == rev * / rev * 100) by (field; lra).
    rewrite E at 2. apply Qmult_le_compat_r; [|discriminate].
    apply Qmult_le_compat_r; [lra | lra].
Qed.

Lemma margins_ordered_witness :
  exists s,
    calculate_full_income_statement
      Sample.pricing Sample.volume Sample.cogs Sample.opex = Ok s /\
    IncomeStatement.net_margin s < IncomeStatement.ebitda_margin s /\
    IncomeStatement.ebitda_margin s <= IncomeStatement.gross_margin s /\
    IncomeStatement.gross_margin s <= 100.
Proof.
  destruct (calculate_full_income_statement_returns
              Sample.pricing Sample.volume Sample.cogs Sample.opex) as [s Hs];
    [vm_compute; discriminate|].
  exists s. split; [exact Hs|].
  assert (Hpos : 0 < Revenue.total_revenue (IncomeStatement.revenue s)).
  { revert Hs. vm_compute. intros Hs. injection Hs as <-. reflexivity. }
  destruct (margins_ordered _ _ _ _ s Hs Hpos) as (H1 & H2 & H3).
  split; [exact H1|]. split.
  - apply H2. revert Hs. vm_compute. intros Hs. injection Hs as <-. discriminate.
  - apply H3. revert Hs. vm_compute. intros Hs. injection Hs as <-. discriminate.
Defined.

(** ** Unit economics: further properties *)

(** X3.  For a statement with a positive order count the per-order metrics
    multiply back to the totals; for a statement returned by
    [calculate_full_income_statement] the gross profit per order times the
    order count is the gross profit, and gross profit per order less OpEx
    per order times the order count is the EBITDA. *)
Theorem unit_economics_scale_back
  (pricing : Pricing.t) (volume : Volume.t) (cogs : Cogs.t) (opex : Opex.t)
  (s : IncomeStatement.t) :
  calculate_full_income_statement pricing volume cogs opex = Ok s ->
  0 < Revenue.total_orders (IncomeStatement.revenue s) ->
  exists u,
    calculate_unit_economics s = Ok u /\
    UnitEconomics.revenue_per_order u *
      Revenue.total_orders (IncomeStatement.revenue s)
      == Revenue.total_revenue (IncomeStatement.revenue s) /\
    UnitEconomics.cogs_per_order u *
      Revenue.total_orders (IncomeStatement.revenue s)
      == CogsCalc.total_cogs (IncomeStatement.cogs s) /\
    UnitEconomics.opex_per_order u *
      Revenue.total_orders (IncomeStatement.revenue s)
      == OpexCalc.total_opex (IncomeStatement.opex s) /\
    UnitEconomics.gross_profit_per_order u *
      Revenue.total_orders (IncomeStatement.revenue s)
      == IncomeStatement.gross_profit s /\
    (UnitEconomics.gross_profit_per_order u - UnitEconomics.opex_per_order u) *
      Revenue.total_orders (IncomeStatement.revenue s)
      == IncomeStatement.ebitda s.
Proof.
  intros H Hpos.
  destruct (statement_parts _ _ _ _ _ H) as (Hrev & _ & Hox & _ & Hgp & Heb & _).
  rewrite <- Hox in Heb. rewrite <- Hrev in Hgp.
  apply eq_implies_Qeq in Heb. apply eq_implies_Qeq in Hgp.
  unfold calculate_unit_economics. cbv zeta.
  pose proof Hpos as G. apply ltb_true_iff in G. rewrite G.
  rewrite !(truediv_guarded _ _ G). cbn [bind].
  eexists. split; [reflexivity|].
  cbn [UnitEconomics.revenue_per_order UnitEconomics.cogs_per_order
       UnitEconomics.gross_profit_per_order UnitEconomics.opex_per_order].
  set (n := Revenue.total_orders (IncomeStatement.revenue s)) in *.
  repeat split; try rewrite Heb; try rewrite Hgp; field; lra.
Qed.

Lemma unit_economics_scale_back_witness :
  exists s u,
    calculate_full_income_statement
      Sample.pricing Sample.volume Sample.cogs Sample.opex = Ok s /\
    calculate_unit_economics s = Ok u /\
    UnitEconomics.gross_profit_per_order u *
      Revenue.total_orders (IncomeStatement.revenue s)
      == IncomeStatement.gross_profit s.
Proof.
  destruct (calculate_full_income_statement_returns
              Sample.pricing Sample.volume Sample.cogs Sample.opex) as [s Hs];
    [vm_compute; discriminate|].
  assert (Hpos : 0 < Revenue.total_orders (IncomeStatement.revenue s)).
  { revert Hs. vm_compute. intros Hs. injection Hs as <-. reflexivity. }
  destruct (unit_economics_scale_back _ _ _ _ s Hs Hpos)
    as (u & Hu & _ & _ & _ & Hg & _).
  exists s, u. split; [exact Hs|]. split; [exact Hu | exact Hg].
Defined.

(** ** Break-even against the income statement *)

(** X4.  The variable cost per order of the break-even analysis is the
    COGS of the income statement without its QC part, per order: total
    COGS is the order count times the variable cost per order, plus QC. *)
Theorem cogs_is_variable_cost_plus_qc
  (pricing : Pricing.t) (volume : Volume.t) (cogs : Cogs.t) (opex : Opex.t)
  (s : IncomeStatement.t) (r : Breakeven.t) :
  calculate_full_income_statement pricing volume cogs opex = Ok s ->
  calculate_breakeven pricing volume cogs opex = Ok r ->
  CogsCalc.total_cogs (IncomeStatement.cogs s) ==
    Revenue.total_orders (IncomeStatement.revenue s) *
    Breakeven.variable_cost_per_order r +
    CogsCalc.qc (IncomeStatement.cogs s).
Proof.
  intros Hs Hr.
  destruct (statement_parts _ _ _ _ _ Hs) as (Hrev & Hc & _).
  rewrite Hrev, (breakeven_variable_cost _ _ _ _ _ Hr).
  unfold calculate_cogs in Hc. peel Hc. injection Hc as <-.
  apply truediv_ok_inv in E. destruct E as [-> Hnz].
  cbn [CogsCalc.total_cogs CogsCalc.qc].
  unfold calculate_revenue. cbn [Revenue.total_orders]. field. exact Hnz.
Qed.

Lemma cogs_is_variable_cost_plus_qc_witness :
  exists s r,
    calculate_full_income_statement
      Sample.pricing Sample.volume Sample.cogs Sample.opex = Ok s /\
    calculate_breakeven Sample.pricing Sample.volume Sample.cogs Sample.opex = Ok r /\
    CogsCalc.total_cogs (IncomeStatement.cogs s) ==
      Revenue.total_orders (IncomeStatement.revenue s) *
      Breakeven.variable_cost_per_order r +
      CogsCalc.qc (IncomeStatement.cogs s).
Proof.
  destruct (calculate_full_income_statement_returns
              Sample.pricing Sample.volume Sample.cogs Sample.opex) as [s Hs];
    [vm_compute; discriminate|].
  destruct (calculate_breakeven_returns
              Sample.pricing Sample.volume Sample.cogs Sample.opex) as [r Hr];
    [vm_compute; discriminate|].
  exists s, r. split; [exact Hs|]. split; [exact Hr|].
  exact (cogs_is_variable_cost_plus_qc _ _ _ _ s r Hs Hr).
Defined.

(** X5.  Without an aggregator channel (no aggregator orders per day) and
    with positive orders per day, operating days and order count, the
    revenue per order of the break-even analysis times the order count is
    the total revenue of the income statement, so it is the revenue per
    order of the unit economics. *)
Theorem breakeven_revenue_matches_statement
  (pricing : Pricing.t) (volume : Volume.t) (cogs : Cogs.t) (opex : Opex.t)
  (s : IncomeStatement.t) (r : Breakeven.t) :
  calculate_full_income_statement pricing volume cogs opex = Ok s ->
  calculate_breakeven pricing volume cogs opex = Ok r ->
  Volume.zomato_orders_per_day volume == 0 ->
  0 < Volume.orders_per_day volume ->
  0 < Volume.operating_days volume ->
  0 < Revenue.total_orders (IncomeStatement.revenue s) ->
  Breakeven.revenue_per_order r * Revenue.total_orders (IncomeStatement.revenue s)
    == Revenue.total_revenue (IncomeStatement.revenue s) /\
  exists u,
    calculate_unit_economics s = Ok u /\
    UnitEconomics.revenue_per_order u == Breakeven.revenue_per_order r.
Proof.
  intros Hs Hr Hz Hopd Hdays Hn.
  destruct (statement_parts _ _ _ _ _ Hs) as (Hrev & _).
  assert (Hmain :
    Breakeven.revenue_per_order r * Revenue.total_orders (IncomeStatement.revenue s)
    == Revenue.total_revenue (IncomeStatement.revenue s)).
  { rewrite Hrev in Hn |- *.
    rewrite (breakeven_revenue_per_order _ _ _ _ _ Hr). cbv zeta.
    unfold calculate_revenue in Hn |- *.
    cbn [Revenue.total_orders Revenue.total_revenue] in Hn |- *.
    apply ltb_true_iff in Hopd, Hdays. rewrite Hopd, Hdays.
    pose proof Hn as G. apply ltb_true_iff in G. rewrite G. cbn [andb].
    assert (Gz : ltb 0 (Volume.zomato_orders_per_day volume) = false)
      by (apply ltb_false_iff; lra).
    rewrite Gz. cbn [andb].
    set (n := Volume.restaurants volume * Volume.orders_per_day volume *
              Volume.operating_days volume) in *.
    rewrite Hz. field. lra. }
  split; [exact Hmain|].
  unfold calculate_unit_economics. cbv zeta.
  pose proof Hn as G. apply ltb_true_iff in G. rewrite G.
  rewrite !(truediv_guarded _ _ G). cbn [bind].
  eexists. split; [reflexivity|]. cbn [UnitEconomics.revenue_per_order].
  rewrite <- Hmain. field. lra.
Qed.

Lemma breakeven_revenue_matches_statement_witness :
  exists s r,
    calculate_full_income_statement
      Sample.pricing Sample.volume Sample.cogs Sample.opex = Ok s /\
    calculate_breakeven Sample.pricing Sample.volume Sample.cogs Sample.opex = Ok r /\
    Breakeven.revenue_per_order r * Revenue.total_orders (IncomeStatement.revenue s)
      == Revenue.total_revenue (IncomeStatement.revenue s).
Proof.
  destruct (calculate_full_income_statement_returns
              Sample.pricing Sample.volume Sample.cogs Sample.opex) as [s Hs];
    [vm_compute; discriminate|].
  destruct (calculate_breakeven_returns
              Sample.pricing Sample.volume Sample.cogs Sample.opex) as [r Hr];
    [vm_compute; discriminate|].
  exists s, r. split; [exact Hs|]. split; [exact Hr|].
  apply (breakeven_revenue_matches_statement _ _ _ _ s r Hs Hr).
  - reflexivity.
  - reflexivity.
  - reflexivity.
  - revert Hs. vm_compute. intros Hs. injection Hs as <-. reflexivity.
Defined.

(** ** Break-even thresholds: further properties *)

Section BreakevenThresholds.

Variables (pricing : Pricing.t) (volume : Volume.t) (cogs : Cogs.t) (opex : Opex.t).
Variable r : Breakeven.t.
Hypothesis Hr : calculate_breakeven pricing volume cogs opex = Ok r.

Lemma breakeven_restaurants_cases :
  Breakeven.breakeven_restaurants r =
  if ltb 0 (Volume.orders_per_day volume) && ltb 0 (Volume.operating_days volume)
     && ltb 0 (Volume.orders_per_day volume * Volume.operating_days volume)
  then match Breakeven.breakeven_orders r with
       | Fin q =>
           Fin (q / (Volume.orders_per_day volume * Volume.operating_days volume))
       | other => other
       end
  else PInf.
Proof.
  pose proof Hr as H. unfold calculate_breakeven in H. cbv zeta in H.
  peel H. injection H as <-.
  cbn [Breakeven.breakeven_restaurants Breakeven.breakeven_orders].
  clear - E3.
  destruct (_ && _) in E3 |- *; cbn [andb]; [|now injection E3].
  destruct (ltb 0 _) eqn:G in E3 |- *; [|now injection E3].
  rewrite (float_truediv_guarded _ _ G) in E3. injection E3 as <-.
  now destruct x2.
Qed.

Lemma breakeven_months_cases :
  Breakeven.months_to_breakeven r =
  if ltb 0 (Volume.orders_per_day volume) && ltb 0 (Volume.restaurants volume)
     && (ltb 0 (Volume.restaurants volume * Volume.orders_per_day volume *
                Volume.operating_days volume)
         && ltb 0 (Breakeven.contribution_margin_per_order r))
  then Fin (Breakeven.fixed_costs_annual r /
            Breakeven.contribution_margin_per_order r /
            (Volume.restaurants volume * Volume.orders_per_day volume *
             Volume.operating_days volume) * 12)
  else PInf.
Proof.
  rewrite (breakeven_fixed_costs _ _ _ _ _ Hr).
  pose proof Hr as H. unfold calculate_breakeven in H. cbv zeta in H.
  peel H. injection H as <-.
  cbn [Breakeven.months_to_breakeven Breakeven.contribution_margin_per_order].
  clear - E2 E4.
  destruct (_ && _) in E4 |- *; cbn [andb]; [|now injection E4].
  destruct (ltb 0 (_ * _ * _)) eqn:G in E4 |- *; cbn [andb] in *;
    [|now injection E4].
  destruct (ltb 0 _) eqn:G' in E2, E4 |- *; [|now injection E4].
  rewrite (truediv_guarded _ _ G') in E2. cbn [bind] in E2. injection E2 as <-.
  rewrite (float_truediv_guarded _ _ G) in E4. cbn [bind float_mul] in E4.
  now injection E4.
Qed.

End BreakevenThresholds.

(** X6.  At the break-even order count revenue covers cost exactly: when
    the contribution margin is positive, [breakeven_orders] times the
    revenue per order equals the fixed costs plus [breakeven_orders] times
    the variable cost per order. *)
Theorem breakeven_orders_balance
  (pricing : Pricing.t) (volume : Volume.t) (cogs : Cogs.t) (opex : Opex.t)
  (r : Breakeven.t) :
  calculate_breakeven pricing volume cogs opex = Ok r ->
  0 < Breakeven.contribution_margin_per_order r ->
  exists q,
    Breakeven.breakeven_orders r = Fin q /\
    q * Breakeven.revenue_per_order r ==
    Breakeven.fixed_costs_annual r + q * Breakeven.variable_cost_per_order r.
Proof.
  intros Hr Hcm.
  rewrite (breakeven_orders_cases _ _ _ _ _ Hr).
  pose proof Hcm as G. apply ltb_true_iff in G. rewrite G.
  eexists. split; [reflexivity|].
  pose proof (breakeven_margin _ _ _ _ _ Hr) as Hm. apply eq_implies_Qeq in Hm.
  set (m := Breakeven.contribution_margin_per_order r) in *.
  assert (E : Breakeven.revenue_per_order r ==
              m + Breakeven.variable_cost_per_order r) by lra.
  rewrite E. field. lra.
Qed.

Lemma breakeven_orders_balance_witness :
  exists r q,
    calculate_breakeven Sample.pricing Sample.volume Sample.cogs Sample.opex = Ok r /\
    Breakeven.breakeven_orders r = Fin q /\
    q * Breakeven.revenue_per_order r ==
    Breakeven.fixed_costs_annual r + q * Breakeven.variable_cost_per_order r.
Proof.
  destruct (calculate_breakeven_returns
              Sample.pricing Sample.volume Sample.cogs Sample.opex) as [r Hr];
    [vm_compute; discriminate|].
  assert (Hcm : 0 < Breakeven.contribution_margin_per_order r).
  { revert Hr. vm_compute. intros Hr. injection Hr as <-. reflexivity. }
  destruct (breakeven_orders_balance _ _ _ _ r Hr Hcm) as (q & Hq & Hbal).
  exists r, q. split; [exact Hr|]. split; [exact Hq | exact Hbal].
Defined.

(** X7.  The three thresholds are finite or [+inf], never [-inf] or NaN.
    [breakeven_orders] is finite exactly when the contribution margin is
    positive; [breakeven_restaurants] needs in addition positive orders
    per day and operating days; [months_to_breakeven] needs in addition a
    positive number of restaurants.  So a bundle without orders has
    infinite restaurant and month thresholds even when [breakeven_orders]
    is finite. *)
Theorem thresholds_finite_iff
  (pricing : Pricing.t) (volume : Volume.t) (cogs : Cogs.t) (opex : Opex.t)
  (r : Breakeven.t) :
  calculate_breakeven pricing volume cogs opex = Ok r ->
  ((exists q, Breakeven.breakeven_orders r = Fin q) <->
   0 < Breakeven.contribution_margin_per_order r) /\
  ((exists q, Breakeven.breakeven_restaurants r = Fin q) <->
   0 < Breakeven.contribution_margin_per_order r /\
   0 < Volume.orders_per_day volume /\ 0 < Volume.operating_days volume) /\
  ((exists q, Breakeven.months_to_breakeven r = Fin q) <->
   0 < Breakeven.contribution_margin_per_order r /\
   0 < Volume.orders_per_day volume /\ 0 < Volume.operating_days volume /\
   0 < Volume.restaurants volume) /\
  ((exists q, Breakeven.breakeven_orders r = Fin q) \/
   Breakeven.breakeven_orders r = PInf) /\
  ((exists q, Breakeven.breakeven_restaurants r = Fin q) \/
   Breakeven.breakeven_restaurants r = PInf) /\
  ((exists q, Breakeven.months_to_breakeven r = Fin q) \/
   Breakeven.months_to_breakeven r = PInf).
Proof.
  intros Hr.
  rewrite (breakeven_restaurants_cases _ _ _ _ _ Hr).
  rewrite (breakeven_months_cases _ _ _ _ _ Hr).
  rewrite (breakeven_orders_cases _ _ _ _ _ Hr).
  set (m := Breakeven.contribution_margin_per_order r).
  set (opd := Volume.orders_per_day volume).
  set (days := Volume.operating_days volume).
  set (n := Volume.restaurants volume).
  destruct (ltb 0 m) eqn:Gm;
    [apply ltb_true_iff in Gm | apply ltb_false_iff in Gm];
  (destruct (ltb 0 opd) eqn:Go;
    [apply ltb_true_iff in Go | apply ltb_false_iff in Go]);
  (destruct (ltb 0 days) eqn:Gd;
    [apply ltb_true_iff in Gd | apply ltb_false_iff in Gd]);
  (destruct (ltb 0 n) eqn:Gn;
    [apply ltb_true_iff in Gn | apply ltb_false_iff in Gn]);
  cbn [andb];
  try (assert (Gp : ltb 0 (opd * days) = true)
         by (apply ltb_true_iff; now apply Qmult_lt_0_compat); rewrite Gp);
  try (assert (Gy : ltb 0 (n * opd * days) = true)
         by (apply ltb_true_iff; repeat apply Qmult_lt_0_compat; assumption);
       rewrite Gy);
  try (assert (Gy : ltb 0 (n * opd * days) = false)
         by (apply ltb_false_iff;
             assert (0 <= n * opd) by (apply Qmult_le_0_compat; lra);
             setoid_replace (n * opd * days) with (- (n * opd * - days)) by ring;
             assert (0 <= n * opd * - days) by (apply Qmult_le_0_compat; lra);
             lra);
       rewrite Gy);
  cbn [andb];
  repeat split; intros; 
  repeat match goal with
         | H : exists _, _ |- _ => destruct H
         | H : _ /\ _ |- _ => destruct H
         end;
  try discriminate; try lra; eauto.
Qed.

Lemma thresholds_finite_iff_witness :
  exists r,
    calculate_breakeven (Pricing.set_per_use_fee Sample.pricing 5)
      (Volume.set_orders_per_day Sample.volume 0) Sample.cogs Sample.opex = Ok r /\
    (exists q, Breakeven.breakeven_orders r = Fin q) /\
    Breakeven.breakeven_restaurants r = PInf /\
    Breakeven.months_to_breakeven r = PInf.
Proof.
  destruct (calculate_breakeven_returns
              (Pricing.set_per_use_fee Sample.pricing 5)
              (Volume.set_orders_per_day Sample.volume 0) Sample.cogs Sample.opex)
    as [r Hr]; [vm_compute; discriminate|].
  exists r. split; [exact Hr|].
  destruct (thresholds_finite_iff _ _ _ _ r Hr) as (Ho & Hb & Hm & _ & Hb' & Hm').
  assert (Hcm : 0 < Breakeven.contribution_margin_per_order r).
  { revert Hr. vm_compute. intros Hr. injection Hr as <-. reflexivity. }
  split; [apply Ho; exact Hcm|].
  split.
  - destruct Hb' as [Hfin | Hinf]; [|exact Hinf].
    apply Hb in Hfin. destruct Hfin as (_ & Hopd & _).
    vm_compute in Hopd. discriminate.
  - destruct Hm' as [Hfin | Hinf]; [|exact Hinf].
    apply Hm in Hfin. destruct Hfin as (_ & Hopd & _).
    vm_compute in Hopd. discriminate.
Defined.

(** X8.  With a positive margin and positive orders per day, operating
    days and restaurants, the restaurant threshold is the order threshold
    divided by the yearly orders of one restaurant, the month threshold is
    twelve times the restaurant threshold over the number of restaurants,
    and break-even falls within twelve months exactly when the restaurant
    threshold does not exceed the number of restaurants. *)
Theorem thresholds_related
  (pricing : Pricing.t) (volume : Volume.t) (cogs : Cogs.t) (opex : Opex.t)
  (r : Breakeven.t) :
  calculate_breakeven pricing volume cogs opex = Ok r ->
  0 < Breakeven.contribution_margin_per_order r ->
  0 < Volume.orders_per_day volume -> 0 < Volume.operating_days volume ->
  0 < Volume.restaurants volume ->
  exists qo qr qm,
    Breakeven.breakeven_orders r = Fin qo /\
    Breakeven.breakeven_restaurants r = Fin qr /\
    Breakeven.months_to_breakeven r = Fin qm /\
    qr == qo / (Volume.orders_per_day volume * Volume.operating_days volume) /\
    qm == qr / Volume.restaurants volume * 12 /\
    (qm <= 12 <-> qr <= Volume.restaurants volume).
Proof.
  intros Hr Hcm Ho Hd Hn.
  rewrite (breakeven_restaurants_cases _ _ _ _ _ Hr).
  rewrite (breakeven_months_cases _ _ _ _ _ Hr).
  rewrite (breakeven_orders_cases _ _ _ _ _ Hr).
  set (m := Breakeven.contribution_margin_per_order r) in *.
  set (f := Breakeven.fixed_costs_annual r).
  set (opd := Volume.orders_per_day volume) in *.
  set (days := Volume.operating_days volume) in *.
  set (n := Volume.restaurants volume) in *.
  assert (Hp : 0 < opd * days) by now apply Qmult_lt_0_compat.
  assert (Hy : 0 < n * opd * days) by (repeat apply Qmult_lt_0_compat; assumption).
  apply ltb_true_iff in Hcm, Ho, Hd, Hn. rewrite Hcm, Ho, Hd, Hn.
  pose proof Hp as Gp. apply ltb_true_iff in Gp. rewrite Gp.
  pose proof Hy as Gy. apply ltb_true_iff in Gy. rewrite Gy.
  apply ltb_true_iff in Hcm, Ho, Hd, Hn.
  cbn [andb]. do 3 eexists.
  split; [reflexivity|]. split; [reflexivity|]. split; [reflexivity|].
  split; [reflexivity|].
  assert (Hm : f / m / (n * opd * days) * 12 == f / m / (opd * days) / n * 12)
    by (field; repeat split; lra).
  split; [exact Hm|].
  rewrite Hm. set (qr := f / m / (opd * days)).
  assert (Hi : 0 < / n) by now apply Qinv_lt_0_compat.
  assert (E : n * / n == 1) by (field; lra).
  unfold Qdiv. split; intros H.
  - apply Qmult_lt_0_le_reg_r with (z := / n); [exact Hi | lra].
  - assert (qr * / n <= n * / n)
      by (apply Qmult_le_compat_r; [exact H | lra]).
    lra.
Qed.

Lemma thresholds_related_witness :
  exists r qr qm,
    calculate_breakeven Sample.pricing Sample.volume Sample.cogs Sample.opex = Ok r /\
    Breakeven.breakeven_restaurants r = Fin qr /\
    Breakeven.months_to_breakeven r = Fin qm /\
    qm == qr / Volume.restaurants Sample.volume * 12.
Proof.
  destruct (calculate_breakeven_returns
              Sample.pricing Sample.volume Sample.cogs Sample.opex) as [r Hr];
    [vm_compute; discriminate|].
  assert (Hcm : 0 < Breakeven.contribution_margin_per_order r).
  { revert Hr. vm_compute. intros Hr. injection Hr as <-. reflexivity. }
  destruct (thresholds_related _ _ _ _ r Hr Hcm)
    as (qo & qr & qm & _ & Hqr & Hqm & _ & Hrel & _);
    [reflexivity | reflexivity | reflexivity |].
  exists r, qr, qm. split; [exact Hr|]. split; [exact Hqr|].
  split; [exact Hqm | exact Hrel].
Defined.

(** X9.  The QC cost never enters the break-even analysis: two COGS
    dictionaries that differ only in [qc_batch_cost] and
    [batches_per_month] give the same break-even result, although they
    give different income statements as soon as the operating days and the
    QC costs are not zero. *)
Theorem breakeven_ignores_qc
  (pricing : Pricing.t) (volume : Volume.t) (cogs : Cogs.t) (opex : Opex.t)
  (qc_batch_cost batches_per_month : Q) :
  calculate_breakeven pricing volume
    (Cogs.mk (Cogs.container_cost cogs) (Cogs.container_lifespan cogs)
             (Cogs.wash_cost cogs) (Cogs.collection_cost cogs)
             qc_batch_cost batches_per_month) opex
  = calculate_breakeven pricing volume cogs opex /\
  (forall s s' : IncomeStatement.t,
     calculate_full_income_statement pricing volume cogs opex = Ok s ->
     calculate_full_income_statement pricing volume
       (Cogs.mk (Cogs.container_cost cogs) (Cogs.container_lifespan cogs)
                (Cogs.wash_cost cogs) (Cogs.collection_cost cogs)
                qc_batch_cost batches_per_month) opex = Ok s' ->
     IncomeStatement.net_income s' - IncomeStatement.net_income s ==
     (Cogs.qc_batch_cost cogs * Cogs.batches_per_month cogs -
      qc_batch_cost * batches_per_month) * (Volume.operating_days volume / 30)).
Proof.
  split; [reflexivity|].
  intros s s' Hs Hs'.
  destruct (statement_parts _ _ _ _ _ Hs) as (_ & Hc & _ & _ & Hg & He & Hn).
  destruct (statement_parts _ _ _ _ _ Hs') as (_ & Hc' & _ & _ & Hg' & He' & Hn').
  rewrite Hn, Hn', He, He', Hg, Hg'.
  unfold calculate_cogs in Hc, Hc'. cbn [Cogs.container_cost Cogs.container_lifespan
    Cogs.wash_cost Cogs.collection_cost Cogs.qc_batch_cost Cogs.batches_per_month]
    in Hc'.
  destruct (truediv _ _) as [a|] in Hc, Hc'; [|discriminate].
  cbn [bind] in Hc, Hc'.
  apply (f_equal (fun x => match x with
                           | Ok b => CogsCalc.total_cogs b
                           | Raise _ => 0
                           end)) in Hc, Hc'.
  cbn [CogsCalc.total_cogs] in Hc, Hc'. rewrite <- Hc, <- Hc'. ring.
Qed.

Lemma breakeven_ignores_qc_witness :
  exists s s',
    calculate_full_income_statement
      Sample.pricing Sample.volume Sample.cogs Sample.opex = Ok s /\
    calculate_full_income_statement
      Sample.pricing Sample.volume (Cogs.mk 100 150 (3 # 2) 1 0 0) Sample.opex
      = Ok s' /\
    IncomeStatement.net_income s' - IncomeStatement.net_income s == 200000 /\
    calculate_breakeven
      Sample.pricing Sample.volume (Cogs.mk 100 150 (3 # 2) 1 0 0) Sample.opex
    = calculate_breakeven Sample.pricing Sample.volume Sample.cogs Sample.opex.
Proof.
  destruct (calculate_full_income_statement_returns
              Sample.pricing Sample.volume Sample.cogs Sample.opex) as [s Hs];
    [vm_compute; discriminate|].
  destruct (calculate_full_income_statement_returns
              Sample.pricing Sample.volume (Cogs.mk 100 150 (3 # 2) 1 0 0)
              Sample.opex) as [s' Hs'];
    [vm_compute; discriminate|].
  exists s, s'. split; [exact Hs|]. split; [exact Hs'|].
  destruct (breakeven_ignores_qc
              Sample.pricing Sample.volume Sample.cogs Sample.opex 0 0)
    as [Hsame Hdiff].
  split; [|exact Hsame].
  rewrite (Hdiff s s' Hs Hs'). reflexivity.
Defined.

(** ** Sensitivity scenarios: further properties *)

Lemma quotient_antitone (f m1 m2 : Q) :
  0 < f -> 0 < m1 -> m1 < m2 -> f / m2 < f / m1.
Proof.
  intros Hf H1 H2.
  apply Qlt_shift_div_r; [lra|].
  assert (Hk : 0 < f / m1) by (apply Qlt_shift_div_l; lra).
  assert (Hm : f / m1 * m1 == f) by (field; lra).
  assert (Hs : f / m1 * m1 < f / m1 * m2) by (apply Qmult_lt_l; assumption).
  lra.
Qed.

(** X10.  The five scenarios share their annual fixed costs: no
    perturbation touches what the OpEx or the depreciation tier depend
    on. *)
Theorem sensitivity_fixed_costs_shared
  (pricing : Pricing.t) (volume : Volume.t) (cogs : Cogs.t) (opex : Opex.t)
  (s : Sensitivity.t) :
  calculate_sensitivity_analysis pricing volume cogs opex = Ok s ->
  Breakeven.fixed_costs_annual (Sensitivity.collection_rate_drop s) =
    Breakeven.fixed_costs_annual (Sensitivity.base s) /\
  Breakeven.fixed_costs_annual (Sensitivity.wash_cost_increase s) =
    Breakeven.fixed_costs_annual (Sensitivity.base s) /\
  Breakeven.fixed_costs_annual (Sensitivity.per_use_fee_increase s) =
    Breakeven.fixed_costs_annual (Sensitivity.base s) /\
  Breakeven.fixed_costs_annual (Sensitivity.orders_per_day_drop s) =
    Breakeven.fixed_costs_annual (Sensitivity.base s).
Proof.
  intros Hs.
  destruct (calculate_sensitivity_analysis_inv _ _ _ _ _ Hs)
    as (H0 & H1 & H2 & H3 & H4).
  rewrite (breakeven_fixed_costs _ _ _ _ _ H0), (breakeven_fixed_costs _ _ _ _ _ H1),
    (breakeven_fixed_costs _ _ _ _ _ H2), (breakeven_fixed_costs _ _ _ _ _ H3),
    (breakeven_fixed_costs _ _ _ _ _ H4).
  repeat split.
Qed.

Lemma sensitivity_fixed_costs_shared_witness :
  exists s,
    calculate_sensitivity_analysis
      Sample.pricing Sample.volume Sample.cogs Sample.opex = Ok s /\
    Breakeven.fixed_costs_annual (Sensitivity.orders_per_day_drop s) =
      Breakeven.fixed_costs_annual (Sensitivity.base s).
Proof.
  destruct (calculate_sensitivity_analysis_returns
              Sample.pricing Sample.volume Sample.cogs Sample.opex) as [s Hs];
    [vm_compute; discriminate|].
  exists s. split; [exact Hs|].
  exact (proj2 (proj2 (proj2 (sensitivity_fixed_costs_shared _ _ _ _ s Hs)))).
Defined.

(** X11.  Raising the per-use fee by 0.50 raises the revenue per order and
    the contribution margin by exactly 0.50 and leaves the variable cost
    alone; when the base margin and the fixed costs are positive, the
    scenario's [breakeven_orders] is strictly below the base one. *)
Theorem per_use_fee_increase_effect
  (pricing : Pricing.t) (volume : Volume.t) (cogs : Cogs.t) (opex : Opex.t)
  (s : Sensitivity.t) :
  calculate_sensitivity_analysis pricing volume cogs opex = Ok s ->
  Breakeven.revenue_per_order (Sensitivity.per_use_fee_increase s) ==
    Breakeven.revenue_per_order (Sensitivity.base s) + (1 # 2) /\
  Breakeven.variable_cost_per_order (Sensitivity.per_use_fee_increase s) =
    Breakeven.variable_cost_per_order (Sensitivity.base s) /\
  Breakeven.contribution_margin_per_order (Sensitivity.per_use_fee_increase s) ==
    Breakeven.contribution_margin_per_order (Sensitivity.base s) + (1 # 2) /\
  (0 < Breakeven.contribution_margin_per_order (Sensitivity.base s) ->
   0 < Breakeven.fixed_costs_annual (Sensitivity.base s) ->
   float_lt (Breakeven.breakeven_orders (Sensitivity.per_use_fee_increase s))
            (Breakeven.breakeven_orders (Sensitivity.base s))).
Proof.
  intros Hs.
  destruct (calculate_sensitivity_analysis_inv _ _ _ _ _ Hs)
    as (H0 & _ & _ & H3 & _).
  assert (Hrev :
    Breakeven.revenue_per_order (Sensitivity.per_use_fee_increase s) ==
    Breakeven.revenue_per_order (Sensitivity.base s) + (1 # 2)).
  { rewrite (breakeven_revenue_per_order _ _ _ _ _ H0),
      (breakeven_revenue_per_order _ _ _ _ _ H3).
    cbv zeta. unfold pricing_s3, Pricing.set_per_use_fee.
    cbn [Pricing.per_use_fee Pricing.monthly_fee Pricing.setup_fee Pricing.deposit
         Pricing.green_fee Pricing.revenue_share_pct].
    destruct (_ && _ && _); destruct (_ && _ && _); ring. }
  assert (Hvar :
    Breakeven.variable_cost_per_order (Sensitivity.per_use_fee_increase s) =
    Breakeven.variable_cost_per_order (Sensitivity.base s)).
  { now rewrite (breakeven_variable_cost _ _ _ _ _ H0),
      (breakeven_variable_cost _ _ _ _ _ H3). }
  assert (Hcm :
    Breakeven.contribution_margin_per_order (Sensitivity.per_use_fee_increase s) ==
    Breakeven.contribution_margin_per_order (Sensitivity.base s) + (1 # 2)).
  { rewrite (breakeven_margin _ _ _ _ _ H0), (breakeven_margin _ _ _ _ _ H3).
    rewrite Hrev, Hvar. ring. }
  split; [exact Hrev|]. split; [exact Hvar|]. split; [exact Hcm|].
  intros Hpos Hfix.
  rewrite (breakeven_orders_cases _ _ _ _ _ H0),
    (breakeven_orders_cases _ _ _ _ _ H3).
  assert (Hfix3 : Breakeven.fixed_costs_annual (Sensitivity.per_use_fee_increase s) =
                  Breakeven.fixed_costs_annual (Sensitivity.base s)).
  { now rewrite (breakeven_fixed_costs _ _ _ _ _ H0),
      (breakeven_fixed_costs _ _ _ _ _ H3). }
  rewrite Hfix3.
  assert (G0 : ltb 0 (Breakeven.contribution_margin_per_order (Sensitivity.base s))
               = true) by now apply ltb_true_iff.
  assert (G3 : ltb 0 (Breakeven.contribution_margin_per_order
                        (Sensitivity.per_use_fee_increase s)) = true)
    by (apply ltb_true_iff; lra).
  rewrite G0, G3. cbn [float_lt].
  apply quotient_antitone; lra.
Qed.

Lemma per_use_fee_increase_effect_witness :
  exists s,
    calculate_sensitivity_analysis
      Sample.pricing Sample.volume Sample.cogs Sample.opex = Ok s /\
    float_lt (Breakeven.breakeven_orders (Sensitivity.per_use_fee_increase s))
             (Breakeven.breakeven_orders (Sensitivity.base s)).
Proof.
  destruct (calculate_sensitivity_analysis_returns
              Sample.pricing Sample.volume Sample.cogs Sample.opex) as [s Hs];
    [vm_compute; discriminate|].
  exists s. split; [exact Hs|].
  destruct (per_use_fee_increase_effect _ _ _ _ s Hs) as (_ & _ & _ & Hlt).
  apply Hlt; revert Hs; vm_compute; intros Hs; injection Hs as <-; reflexivity.
Defined.

(** X12.  Raising the wash cost by 20% raises the variable cost per order
    by a fifth of the base washing cost per order (wash cost times
    collection rate), leaves the revenue per order alone and lowers the
    margin by as much: the margin cannot rise when wash cost and
    collection rate are not negative. *)
Theorem wash_cost_increase_effect
  (pricing : Pricing.t) (volume : Volume.t) (cogs : Cogs.t) (opex : Opex.t)
  (s : Sensitivity.t) :
  calculate_sensitivity_analysis pricing volume cogs opex = Ok s ->
  Breakeven.revenue_per_order (Sensitivity.wash_cost_increase s) =
    Breakeven.revenue_per_order (Sensitivity.base s) /\
  Breakeven.variable_cost_per_order (Sensitivity.wash_cost_increase s) ==
    Breakeven.variable_cost_per_order (Sensitivity.base s) +
    (1 # 5) * (Cogs.wash_cost cogs * Volume.collection_rate volume) /\
  Breakeven.contribution_margin_per_order (Sensitivity.wash_cost_increase s) ==
    Breakeven.contribution_margin_per_order (Sensitivity.base s) -
    (1 # 5) * (Cogs.wash_cost cogs * Volume.collection_rate volume) /\
  (0 <= Cogs.wash_cost cogs -> 0 <= Volume.collection_rate volume ->
   Breakeven.contribution_margin_per_order (Sensitivity.wash_cost_increase s) <=
   Breakeven.contribution_margin_per_order (Sensitivity.base s)).
Proof.
  intros Hs.
  destruct (calculate_sensitivity_analysis_inv _ _ _ _ _ Hs)
    as (H0 & _ & H2 & _ & _).
  assert (Hrev :
    Breakeven.revenue_per_order (Sensitivity.wash_cost_increase s) =
    Breakeven.revenue_per_order (Sensitivity.base s)).
  { now rewrite (breakeven_revenue_per_order _ _ _ _ _ H0),
      (breakeven_revenue_per_order _ _ _ _ _ H2). }
  assert (Hvar :
    Breakeven.variable_cost_per_order (Sensitivity.wash_cost_increase s) ==
    Breakeven.variable_cost_per_order (Sensitivity.base s) +
    (1 # 5) * (Cogs.wash_cost cogs * Volume.collection_rate volume)).
  { rewrite (breakeven_variable_cost _ _ _ _ _ H0),
      (breakeven_variable_cost _ _ _ _ _ H2).
    unfold cogs_s2, Cogs.set_wash_cost.
    cbn [Cogs.container_cost Cogs.container_lifespan Cogs.wash_cost
         Cogs.collection_cost].
    unfold Qdiv. ring. }
  assert (Hcm :
    Breakeven.contribution_margin_per_order (Sensitivity.wash_cost_increase s) ==
    Breakeven.contribution_margin_per_order (Sensitivity.base s) -
    (1 # 5) * (Cogs.wash_cost cogs * Volume.collection_rate volume)).
  { rewrite (breakeven_margin _ _ _ _ _ H0), (breakeven_margin _ _ _ _ _ H2).
    rewrite Hrev, Hvar. ring. }
  split; [exact Hrev|]. split; [exact Hvar|]. split; [exact Hcm|].
  intros Hw Hc. pose proof (Qmult_le_0_compat _ _ Hw Hc). lra.
Qed.

Lemma wash_cost_increase_effect_witness :
  exists s,
    calculate_sensitivity_analysis
      Sample.pricing Sample.volume Sample.cogs Sample.opex = Ok s /\
    Breakeven.contribution_margin_per_order (Sensitivity.wash_cost_increase s) <=
    Breakeven.contribution_margin_per_order (Sensitivity.base s).
Proof.
  destruct (calculate_sensitivity_analysis_returns
              Sample.pricing Sample.volume Sample.cogs Sample.opex) as [s Hs];
    [vm_compute; discriminate|].
  exists s. split; [exact Hs|].
  destruct (wash_cost_increase_effect _ _ _ _ s Hs) as (_ & _ & _ & Hle).
  apply Hle; vm_compute; discriminate.
Defined.

(** X13.  What scenario [collection_rate_drop] does to the collection
    rate: a base rate of 0.6 or more drops by exactly 0.10; a base rate
    from 0.5 to 0.6 drops to 0.5; a base rate below 0.5 is raised to
    0.5. *)
Theorem collection_rate_drop_rate (volume : Volume.t) :
  ((3 # 5) <= Volume.collection_rate volume ->
   Volume.collection_rate (volume_s1 volume) ==
   Volume.collection_rate volume - (1 # 10)) /\
  ((1 # 2) <= Volume.collection_rate volume ->
   Volume.collection_rate volume <= (3 # 5) ->
   Volume.collection_rate (volume_s1 volume) == 1 # 2) /\
  (Volume.collection_rate volume < (1 # 2) ->
   Volume.collection_rate (volume_s1 volume) == 1 # 2 /\
   Volume.collection_rate volume < Volume.collection_rate (volume_s1 volume)).
Proof.
  unfold volume_s1, Volume.set_collection_rate. cbn [Volume.collection_rate].
  unfold Py.max.
  destruct (ltb _ _) eqn:G;
    [apply ltb_true_iff in G | apply ltb_false_iff in G];
    repeat split; intros; lra.
Qed.

Lemma collection_rate_drop_rate_witness :
  Volume.collection_rate (volume_s1 Sample.volume) == 8 # 10 /\
  Volume.collection_rate
    (volume_s1 (Volume.set_collection_rate Sample.volume (55 # 100))) == 1 # 2 /\
  Volume.collection_rate
    (volume_s1 (Volume.set_collection_rate Sample.volume (3 # 10))) == 1 # 2.
Proof.
  split.
  { destruct (collection_rate_drop_rate Sample.volume) as (H & _).
    rewrite H; [reflexivity | vm_compute; discriminate]. }
  split.
  { destruct (collection_rate_drop_rate
                (Volume.set_collection_rate Sample.volume (55 # 100)))
      as (_ & H & _).
    apply H; vm_compute; discriminate. }
  destruct (collection_rate_drop_rate
              (Volume.set_collection_rate Sample.volume (3 # 10)))
    as (_ & _ & H).
  apply H. reflexivity.
Defined.

(** X14.  A lower collection rate means fewer containers to wash, and
    nothing else in the break-even analysis: for a base rate of at least
    0.5 and a wash cost that is not negative, scenario
    [collection_rate_drop] has the same revenue per order, a variable cost
    that is not higher and a contribution margin that is not lower than
    the base case. *)
Theorem collection_rate_drop_effect
  (pricing : Pricing.t) (volume : Volume.t) (cogs : Cogs.t) (opex : Opex.t)
  (s : Sensitivity.t) :
  calculate_sensitivity_analysis pricing volume cogs opex = Ok s ->
  Breakeven.revenue_per_order (Sensitivity.collection_rate_drop s) =
    Breakeven.revenue_per_order (Sensitivity.base s) /\
  Breakeven.contribution_margin_per_order (Sensitivity.collection_rate_drop s) -
    Breakeven.contribution_margin_per_order (Sensitivity.base s) ==
    Cogs.wash_cost cogs *
    (Volume.collection_rate volume - Volume.collection_rate (volume_s1 volume)) /\
  ((1 # 2) <= Volume.collection_rate volume -> 0 <= Cogs.wash_cost cogs ->
   Breakeven.variable_cost_per_order (Sensitivity.collection_rate_drop s) <=
     Breakeven.variable_cost_per_order (Sensitivity.base s) /\
   Breakeven.contribution_margin_per_order (Sensitivity.base s) <=
     Breakeven.contribution_margin_per_order (Sensitivity.collection_rate_drop s)).
Proof.
  intros Hs.
  destruct (calculate_sensitivity_analysis_inv _ _ _ _ _ Hs)
    as (H0 & H1 & _ & _ & _).
  assert (Hrev :
    Breakeven.revenue_per_order (Sensitivity.collection_rate_drop s) =
    Breakeven.revenue_per_order (Sensitivity.base s)).
  { now rewrite (breakeven_revenue_per_order _ _ _ _ _ H0),
      (breakeven_revenue_per_order _ _ _ _ _ H1). }
  assert (Hvar :
    Breakeven.variable_cost_per_order (Sensitivity.base s) -
    Breakeven.variable_cost_per_order (Sensitivity.collection_rate_drop s) ==
    Cogs.wash_cost cogs *
    (Volume.collection_rate volume - Volume.collection_rate (volume_s1 volume))).
  { rewrite (breakeven_variable_cost _ _ _ _ _ H0),
      (breakeven_variable_cost _ _ _ _ _ H1).
    unfold Qdiv. ring. }
  assert (Hcm :
    Breakeven.contribution_margin_per_order (Sensitivity.collection_rate_drop s) -
    Breakeven.contribution_margin_per_order (Sensitivity.base s) ==
    Cogs.wash_cost cogs *
    (Volume.collection_rate volume - Volume.collection_rate (volume_s1 volume))).
  { rewrite (breakeven_margin _ _ _ _ _ H0), (breakeven_margin _ _ _ _ _ H1).
    rewrite Hrev, <- Hvar. ring. }
  split; [exact Hrev|]. split; [exact Hcm|].
  intros Hrate Hw.
  assert (Hdrop : 0 <= Volume.collection_rate volume -
                       Volume.collection_rate (volume_s1 volume)).
  { unfold volume_s1, Volume.set_collection_rate. cbn [Volume.collection_rate].
    unfold Py.max. destruct (ltb _ _); lra. }
  pose proof (Qmult_le_0_compat _ _ Hw Hdrop). lra.
Qed.

Lemma collection_rate_drop_effect_witness :
  exists s,
    calculate_sensitivity_analysis
      Sample.pricing Sample.volume Sample.cogs Sample.opex = Ok s /\
    Breakeven.contribution_margin_per_order (Sensitivity.base s) <=
    Breakeven.contribution_margin_per_order (Sensitivity.collection_rate_drop s).
Proof.
  destruct (calculate_sensitivity_analysis_returns
              Sample.pricing Sample.volume Sample.cogs Sample.opex) as [s Hs];
    [vm_compute; discriminate|].
  exists s. split; [exact Hs|].
  destruct (collection_rate_drop_effect _ _ _ _ s Hs) as (_ & _ & Hle).
  apply Hle; vm_compute; discriminate.
Defined.

(** ** Chart sampling: further properties *)

Lemma int_of_nonneg (x : Q) :
  0 <= x -> (0 <= Py.int x)%Z /\ inject_Z (Py.int x) <= x.
Proof.
  destruct x as [n d]. unfold Py.int, Qle, inject_Z. cbn [Qnum Qden].
  intros H. assert (Hn : (0 <= n)%Z) by lia.
  pose proof (Z.quot_pos n (Zpos d) Hn ltac:(lia)).
  pose proof (Z.mul_quot_le n (Zpos d) Hn ltac:(lia)).
  split; [assumption | lia].
Qed.

Lemma chart_data_fields
  (pricing : Pricing.t) (volume : Volume.t) (cogs : Cogs.t) (opex : Opex.t)
  (year3_orders : Q) (d : Chart.t) :
  generate_breakeven_chart_data pricing volume cogs opex year3_orders = Ok d ->
  exists r,
    calculate_breakeven pricing volume cogs opex = Ok r /\
    Chart.orders_range d =
      map (fun i => (i * (Py.int (year3_orders * (3 # 2)) / 20))%Z) (range 21) /\
    Chart.revenue_line d =
      map (fun orders => inject_Z orders * Breakeven.revenue_per_order r)
          (Chart.orders_range d) /\
    Chart.cost_line d =
      map (fun orders =>
             Breakeven.fixed_costs_annual r +
             inject_Z orders * Breakeven.variable_cost_per_order r)
          (Chart.orders_range d) /\
    Chart.breakeven_point d = Breakeven.breakeven_orders r.
Proof.
  intros H. unfold generate_breakeven_chart_data in H.
  apply bind_ok_inv in H. destruct H as (r & Hr & H).
  exists r. split; [exact Hr|].
  rewrite (breakeven_fixed_costs _ _ _ _ _ Hr).
  cbv zeta in H. unfold floordiv in H.
  cbn [Z.of_nat Z.eqb Pos.of_succ_nat Pos.succ bind] in H.
  change (20 + 1)%nat with 21%nat in H.
  pose proof (f_equal (fun x => match x with
                                | Ok a => Chart.orders_range a
                                | Raise _ => nil
                                end) H) as Ho.
  pose proof (f_equal (fun x => match x with
                                | Ok a => Chart.revenue_line a
                                | Raise _ => nil
                                end) H) as Hv.
  pose proof (f_equal (fun x => match x with
                                | Ok a => Chart.cost_line a
                                | Raise _ => nil
                                end) H) as Hc.
  pose proof (f_equal (fun x => match x with
                                | Ok a => Chart.breakeven_point a
                                | Raise _ => NaN
                                end) H) as Hb.
  cbv beta iota in Ho, Hv, Hc, Hb.
  cbn [Chart.orders_range] in Ho. cbn [Chart.revenue_line] in Hv.
  cbn [Chart.cost_line] in Hc. cbn [Chart.breakeven_point] in Hb.
  rewrite <- Ho, <- Hv, <- Hc, <- Hb. repeat split.
Qed.

Lemma nth_map_default {A B : Type} (f : A -> B) (l : list A) (i : nat) (a : A) (b : B) :
  (i < length l)%nat -> nth i (map f l) b = f (nth i l a).
Proof.
  intros H. rewrite (nth_indep _ b (f a)) by now rewrite length_map.
  apply map_nth.
Qed.

(** X15.  The two lines of the chart have one value per sampled order
    count, the marker is the [breakeven_orders] of a direct call to
    [calculate_breakeven], and when the marker is finite the lines cross
    there: at a sample the revenue covers the cost exactly when the
    sampled order count has reached the marker. *)
Theorem chart_lines_cross_at_marker
  (pricing : Pricing.t) (volume : Volume.t) (cogs : Cogs.t) (opex : Opex.t)
  (year3_orders : Q) (d : Chart.t) :
  generate_breakeven_chart_data pricing volume cogs opex year3_orders = Ok d ->
  length (Chart.revenue_line d) = 21%nat /\
  length (Chart.cost_line d) = 21%nat /\
  (forall r, calculate_breakeven pricing volume cogs opex = Ok r ->
             Chart.breakeven_point d = Breakeven.breakeven_orders r) /\
  (forall q, Chart.breakeven_point d = Fin q ->
     forall i, (i < 21)%nat ->
       (nth i (Chart.cost_line d) 0 <= nth i (Chart.revenue_line d) 0 <->
        q <= inject_Z (nth i (Chart.orders_range d) 0%Z))).
Proof.
  intros H.
  destruct (chart_data_fields _ _ _ _ _ _ H) as (r & Hr & Ho & Hv & Hc & Hb).
  assert (Hlen : length (Chart.orders_range d) = 21%nat)
    by now rewrite Ho, length_map, range_length.
  split; [now rewrite Hv, length_map|].
  split; [now rewrite Hc, length_map|].
  split; [intros r' Hr'; congruence|].
  intros q Hq i Hi. rewrite Hb, (breakeven_orders_cases _ _ _ _ _ Hr) in Hq.
  destruct (ltb 0 _) eqn:G in Hq; [|discriminate].
  apply ltb_true_iff in G. injection Hq as <-.
  rewrite Hv, Hc.
  rewrite (nth_map_default _ _ _ 0%Z) by lia.
  rewrite (nth_map_default _ _ _ 0%Z) by lia.
  pose proof (breakeven_margin _ _ _ _ _ Hr) as Hm. apply eq_implies_Qeq in Hm.
  set (n := inject_Z (nth i (Chart.orders_range d) 0%Z)).
  set (m := Breakeven.contribution_margin_per_order r) in *.
  set (f := Breakeven.fixed_costs_annual r).
  assert (Hn : n * Breakeven.revenue_per_order r ==
               n * m + n * Breakeven.variable_cost_per_order r)
    by (rewrite Hm; ring).
  split; intros Hle.
  - apply Qle_shift_div_r; [exact G | lra].
  - assert (f / m * m <= n * m) by (apply Qmult_le_compat_r; lra).
    assert (f / m * m == f) by (field; lra).
    lra.
Qed.

Lemma chart_lines_cross_at_marker_witness :
  exists d q,
    generate_breakeven_chart_data
      Sample.pricing Sample.volume Sample.cogs Sample.opex 75000000 = Ok d /\
    Chart.breakeven_point d = Fin q /\
    ~ nth 9 (Chart.cost_line d) 0 <= nth 9 (Chart.revenue_line d) 0 /\
    nth 10 (Chart.cost_line d) 0 <= nth 10 (Chart.revenue_line d) 0.
Proof.
  destruct (generate_breakeven_chart_data_returns
              Sample.pricing Sample.volume Sample.cogs Sample.opex 75000000)
    as [d Hd]; [vm_compute; discriminate|].
  assert (Hq : exists q, Chart.breakeven_point d = Fin q /\
                         ~ q <= inject_Z (nth 9 (Chart.orders_range d) 0%Z) /\
                         q <= inject_Z (nth 10 (Chart.orders_range d) 0%Z)).
  { revert Hd. vm_compute. intros Hd. injection Hd as <-.
    eexists. split; [reflexivity|]. split.
    - intros Hle. vm_compute in Hle. apply Hle. reflexivity.
    - vm_compute. discriminate. }
  destruct Hq as (q & Hq & H9 & H10).
  destruct (chart_lines_cross_at_marker _ _ _ _ _ d Hd) as (_ & _ & _ & Hx).
  exists d, q. split; [exact Hd|]. split; [exact Hq|]. split.
  - intros Hle. apply H9. apply (Hx q Hq 9%nat); [lia | exact Hle].
  - apply (Hx q Hq 10%nat); [lia | exact H10].
Defined.

(** X16.  For an integer reference order count from 0 to 2^51 (where the
    code's product by 1.5 is exact) the sampled order counts are equally
    spaced, do not decrease, start at 0 and never exceed 1.5 times the
    reference. *)
Theorem chart_orders_range_bounds
  (pricing : Pricing.t) (volume : Volume.t) (cogs : Cogs.t) (opex : Opex.t)
  (n : Z) (d : Chart.t) :
  generate_breakeven_chart_data pricing volume cogs opex (inject_Z n) = Ok d ->
  (0 <= n <= 2 ^ 51)%Z ->
  forall i, (i < 21)%nat ->
    nth i (Chart.orders_range d) 0%Z =
      (Z.of_nat i * nth 1 (Chart.orders_range d) 0)%Z /\
    (0 <= nth i (Chart.orders_range d) 0)%Z /\
    (nth i (Chart.orders_range d) 0 <= nth (S i) (Chart.orders_range d) 0
     \/ i = 20%nat)%Z /\
    inject_Z (nth i (Chart.orders_range d) 0%Z) <= (3 # 2) * inject_Z n.
Proof.
  intros H [Hn _] i Hi.
  assert (Hy : 0 <= inject_Z n)
    by (change 0 with (inject_Z 0); now rewrite <- Zle_Qle).
  destruct (chart_data_fields _ _ _ _ _ _ H) as (_ & _ & Ho & _).
  rewrite Ho. rewrite !nth_map_range by lia.
  change (Z.of_nat 1) with 1%Z. rewrite Z.mul_1_l.
  assert (Hx : 0 <= inject_Z n * (3 # 2)) by lra.
  destruct (int_of_nonneg _ Hx) as [Hint Hle].
  set (m := Py.int (inject_Z n * (3 # 2))) in *.
  pose proof (Z.div_pos m 20 Hint ltac:(lia)) as Hstep.
  pose proof (Z.mul_div_le m 20 ltac:(lia)) as Hfloor.
  split; [reflexivity|].
  split; [lia|].
  split.
  { destruct (Nat.eq_dec i 20) as [->|Hne]; [now right | left].
    rewrite nth_map_range by lia. nia. }
  apply Qle_trans with (inject_Z m); [|lra].
  rewrite <- Zle_Qle. nia.
Qed.

Lemma chart_orders_range_bounds_witness :
  exists d,
    generate_breakeven_chart_data
      Sample.pricing Sample.volume Sample.cogs Sample.opex (inject_Z 7500000)
    = Ok d /\
    nth 3 (Chart.orders_range d) 0%Z = (3 * nth 1 (Chart.orders_range d) 0)%Z /\
    inject_Z (nth 3 (Chart.orders_range d) 0%Z) <= (3 # 2) * inject_Z 7500000.
Proof.
  destruct (generate_breakeven_chart_data_returns
              Sample.pricing Sample.volume Sample.cogs Sample.opex
              (inject_Z 7500000))
    as [d Hd]; [vm_compute; discriminate|].
  exists d. split; [exact Hd|].
  destruct (chart_orders_range_bounds _ _ _ _ 7500000%Z d Hd) with (i := 3%nat)
    as (Heq & _ & _ & Hle); [split; vm_compute; discriminate | lia |].
  split; [exact Heq | exact Hle].
Defined.

(** X17.  An integer reference order count from 0 to 13 collapses the
    chart: 1.5 times the reference is below 20, the step size is 0, every
    sampled order count is 0, every revenue value is 0 and every cost
    value is the fixed cost. *)
Theorem chart_collapses_for_small_reference
  (pricing : Pricing.t) (volume : Volume.t) (cogs : Cogs.t) (opex : Opex.t)
  (n : Z) (d : Chart.t) :
  generate_breakeven_chart_data pricing volume cogs opex (inject_Z n) = Ok d ->
  (0 <= n <= 13)%Z ->
  Chart.orders_range d = repeat 0%Z 21 /\
  forall r, calculate_breakeven pricing volume cogs opex = Ok r ->
  forall i, (i < 21)%nat ->
    nth i (Chart.revenue_line d) 0 == 0 /\
    nth i (Chart.cost_line d) 0 == Breakeven.fixed_costs_annual r.
Proof.
  intros H [Hn Hsmall].
  assert (Hy : 0 <= inject_Z n)
    by (change 0 with (inject_Z 0); now rewrite <- Zle_Qle).
  assert (Hy13 : inject_Z n <= 13)
    by (change 13 with (inject_Z 13); now rewrite <- Zle_Qle).
  destruct (chart_data_fields _ _ _ _ _ _ H) as (r & Hr & Ho & Hv & Hc & _).
  assert (Hx : 0 <= inject_Z n * (3 # 2)) by lra.
  destruct (int_of_nonneg _ Hx) as [Hint Hle].
  assert (Hlt : (Py.int (inject_Z n * (3 # 2)) < 20)%Z).
  { rewrite Zlt_Qlt. change (inject_Z 20) with 20. lra. }
  assert (Hstep : (Py.int (inject_Z n * (3 # 2)) / 20 = 0)%Z)
    by (apply Z.div_small; lia).
  rewrite Hstep in Ho.
  assert (Hzero : Chart.orders_range d = repeat 0%Z 21).
  { rewrite Ho. unfold range. cbn [seq map repeat].
    repeat (f_equal; try apply Z.mul_0_r). }
  split; [exact Hzero|].
  intros r' Hr' i Hi. assert (r' = r) as -> by congruence.
  rewrite Hv, Hc, Hzero.
  rewrite !(nth_map_default _ _ _ 0%Z) by (rewrite repeat_length; lia).
  rewrite !nth_repeat. change (inject_Z 0) with 0. split; ring.
Qed.

Lemma chart_collapses_for_small_reference_witness :
  exists d,
    generate_breakeven_chart_data
      Sample.pricing Sample.volume Sample.cogs Sample.opex (inject_Z 13) = Ok d /\
    Chart.orders_range d = repeat 0%Z 21.
Proof.
  destruct (generate_breakeven_chart_data_returns
              Sample.pricing Sample.volume Sample.cogs Sample.opex (inject_Z 13))
    as [d Hd]; [vm_compute; discriminate|].
  exists d. split; [exact Hd|].
  destruct (chart_collapses_for_small_reference _ _ _ _ 13%Z d Hd) as [Hz _];
    [split; vm_compute; discriminate | exact Hz].
Defined.

(** ** Change tracking *)

Section TrackChange.

Variables (now variable_name year : String.string) (old_value new_value : Q).
Variable st : SessionState.t.

Lemma track_change_unchanged :
  old_value == new_value ->
  track_change now variable_name old_value new_value year st = Ok st.
Proof.
  intros H. unfold track_change. apply Qeq_bool_iff in H. now rewrite H.
Qed.

Lemma track_change_changed (s : IncomeStatement.t) :
  ~ old_value == new_value ->
  calculate_full_income_statement
    (YearData.pricing (SessionState.year3 st))
    (YearData.volume (SessionState.year3 st))
    (YearData.cogs (SessionState.year3 st))
    (YearData.opex (SessionState.year3 st)) = Ok s ->
  track_change now variable_name old_value new_value year st =
  Ok (SessionState.set_previous_year3_net_income
        match SessionState.previous_year3_net_income st with
        | Some previous =>
            SessionState.append_change st
              (ChangeEntry.mk now variable_name year old_value new_value
                 (IncomeStatement.net_income s - previous)
                 (if Qeq_bool previous 0 then 0
                  else (IncomeStatement.net_income s - previous) /
                       Qabs previous * 100))
        | None => st
        end
        (Some (IncomeStatement.net_income s))).
Proof.
  intros Hne Hs. unfold track_change.
  destruct (Qeq_bool old_value new_value) eqn:E.
  - apply Qeq_bool_iff in E. contradiction.
  - cbn [negb]. cbv zeta. rewrite Hs. cbn [bind].
    destruct (SessionState.previous_year3_net_income st) as [previous|];
      [|reflexivity].
    destruct (Qeq_bool previous 0) eqn:E0; cbn [negb bind]; [reflexivity|].
    rewrite truediv_ok; [reflexivity|].
    intros Habs. apply Qeq_bool_neq in E0. apply E0.
    destruct (Qlt_le_dec previous 0) as [Hlt|Hle].
    + rewrite Qabs_neg in Habs by lra. lra.
    + rewrite Qabs_pos in Habs by lra. exact Habs.
Qed.

Lemma track_change_raises :
  ~ old_value == new_value ->
  calculate_full_income_statement
    (YearData.pricing (SessionState.year3 st))
    (YearData.volume (SessionState.year3 st))
    (YearData.cogs (SessionState.year3 st))
    (YearData.opex (SessionState.year3 st)) = Raise ZeroDivisionError ->
  track_change now variable_name old_value new_value year st =
  Raise ZeroDivisionError.
Proof.
  intros Hne Hs. unfold track_change.
  destruct (Qeq_bool old_value new_value) eqn:E.
  - apply Qeq_bool_iff in E. contradiction.
  - cbn [negb]. cbv zeta. now rewrite Hs.
Qed.

End TrackChange.



(** X19.  [track_change] only ever appends to the change history and
    never touches the yearly bundles: the history after a call is the
    history before it followed by at most one entry, and by exactly one
    when the value changed and a previous year-3 net income was known. *)
Theorem track_change_appends
  (now variable_name year : String.string) (old_value new_value : Q)
  (st st' : SessionState.t) :
  track_change now variable_name old_value new_value year st = Ok st' ->
  SessionState.year1 st' = SessionState.year1 st /\
  SessionState.year2 st' = SessionState.year2 st /\
  SessionState.year3 st' = SessionState.year3 st /\
  exists l,
    SessionState.change_history st' = SessionState.change_history st ++ l /\
    (length l <= 1)%nat /\
    (length l = 1%nat <->
     ~ old_value == new_value /\
     SessionState.previous_year3_net_income st <> None).
Proof.
  intros H.
  destruct (Qeq_dec old_value new_value) as [E|E].
  - rewrite (track_change_unchanged _ _ _ _ _ _ E) in H. injection H as <-.
    repeat split. exists []. rewrite app_nil_r.
    split; [reflexivity|]. split; [cbn; lia|].
    split; [discriminate | intros [Hne _]; contradiction].
  - destruct (calculate_full_income_statement
                (YearData.pricing (SessionState.year3 st))
                (YearData.volume (SessionState.year3 st))
                (YearData.cogs (SessionState.year3 st))
                (YearData.opex (SessionState.year3 st))) as [s|e] eqn:Hs.
    + rewrite (track_change_changed _ _ _ _ _ _ s E Hs) in H.
      destruct (SessionState.previous_year3_net_income st) as [previous|] eqn:Hp;
        apply (f_equal (fun x => match x with Ok a => a | Raise _ => st end)) in H;
        subst st'; cbn.
      * repeat split. eexists. split; [reflexivity|]. split; [cbn; lia|].
        split; [intros _; split; [exact E | discriminate] | reflexivity].
      * repeat split. exists []. rewrite app_nil_r.
        split; [reflexivity|]. split; [cbn; lia|].
        split; [discriminate | intros [_ Hne]; contradiction].
    + destruct e. rewrite (track_change_raises _ _ _ _ _ _ E Hs) in H.
      discriminate.
Qed.

Lemma track_change_appends_witness :
  exists st',
    track_change Sample.clock Sample.fee_label 2 3 Sample.year_label Sample.session
    = Ok st' /\
    SessionState.year3 st' = Sample.year /\
    length (SessionState.change_history st') = 1%nat.
Proof.
  destruct (track_change Sample.clock Sample.fee_label 2 3 Sample.year_label
              Sample.session) as [st'|e] eqn:H; [|vm_compute in H; discriminate].
  exists st'. split; [reflexivity|].
  destruct (track_change_appends _ _ _ _ _ _ st' H)
    as (_ & _ & H3 & l & Hl & _ & Hone).
  split; [exact H3|].
  rewrite Hl, length_app. cbn [Sample.session SessionState.change_history length].
  apply Hone. split; [vm_compute; discriminate | discriminate].
Defined.

(** X20.  When the value changed and a previous year-3 net income is
    known, the entry appended by [track_change] records the arguments of
    the call, the difference between the year-3 net income and the
    previous one, and that difference as a percentage of the magnitude of
    the previous net income: the percentage has the sign of the
    difference, and is 0 when the previous net income is 0.  The net
    income becomes the previous one of the next call. *)
Theorem track_change_entry
  (now variable_name year : String.string) (old_value new_value previous : Q)
  (st st' : SessionState.t) :
  track_change now variable_name old_value new_value year st = Ok st' ->
  ~ old_value == new_value ->
  SessionState.previous_year3_net_income st = Some previous ->
  exists s e,
    calculate_full_income_statement
      (YearData.pricing (SessionState.year3 st))
      (YearData.volume (SessionState.year3 st))
      (YearData.cogs (SessionState.year3 st))
      (YearData.opex (SessionState.year3 st)) = Ok s /\
    SessionState.change_history st' = SessionState.change_history st ++ [e] /\
    SessionState.previous_year3_net_income st' =
      Some (IncomeStatement.net_income s) /\
    ChangeEntry.timestamp e = now /\
    ChangeEntry.variable e = variable_name /\
    ChangeEntry.year e = year /\
    ChangeEntry.old_value e = old_value /\
    ChangeEntry.new_value e = new_value /\
    ChangeEntry.impact_abs e = IncomeStatement.net_income s - previous /\
    (previous == 0 -> ChangeEntry.impact_pct e = 0) /\
    (~ previous == 0 ->
     ChangeEntry.impact_pct e == ChangeEntry.impact_abs e / Qabs previous * 100 /\
     (0 <= ChangeEntry.impact_pct e <-> 0 <= ChangeEntry.impact_abs e)).
Proof.
  intros H Hne Hp.
  destruct (calculate_full_income_statement
              (YearData.pricing (SessionState.year3 st))
              (YearData.volume (SessionState.year3 st))
              (YearData.cogs (SessionState.year3 st))
              (YearData.opex (SessionState.year3 st))) as [s|e] eqn:Hs.
  2:{ destruct e. rewrite (track_change_raises _ _ _ _ _ _ Hne Hs) in H.
      discriminate. }
  rewrite (track_change_changed _ _ _ _ _ _ s Hne Hs), Hp in H.
  apply (f_equal (fun x => match x with Ok a => a | Raise _ => st end)) in H.
  subst st'. exists s. eexists. split; [reflexivity|].
  cbn [SessionState.set_previous_year3_net_income SessionState.append_change
       SessionState.change_history SessionState.previous_year3_net_income].
  split; [reflexivity|]. split; [reflexivity|].
  cbn [ChangeEntry.timestamp ChangeEntry.variable ChangeEntry.year
       ChangeEntry.old_value ChangeEntry.new_value ChangeEntry.impact_abs
       ChangeEntry.impact_pct].
  repeat (split; [reflexivity|]).
  split.
  - intros Hz. apply Qeq_bool_iff in Hz. now rewrite Hz.
  - intros Hnz. destruct (Qeq_bool previous 0) eqn:E.
    { apply Qeq_bool_iff in E. contradiction. }
    split; [reflexivity|].
    set (a := IncomeStatement.net_income s - previous).
    assert (Habs : 0 < Qabs previous).
    { destruct (Qlt_le_dec previous 0) as [Hlt|Hle].
      - rewrite Qabs_neg by lra. lra.
      - rewrite Qabs_pos by lra.
        destruct (Qle_lt_or_eq _ _ Hle) as [Hpos|Heq]; [exact Hpos|].
        exfalso. apply Hnz. symmetry. exact Heq. }
    assert (Hinv : 0 < / Qabs previous) by now apply Qinv_lt_0_compat.
    unfold Qdiv. split; intros Hle.
    + assert (Hq : 0 <= a * / Qabs previous) by lra.
      assert (Hm : 0 <= a * / Qabs previous * Qabs previous)
        by (apply Qmult_le_0_compat; lra).
      assert (Ha : a * / Qabs previous * Qabs previous == a) by (field; lra).
      lra.
    + assert (0 <= a * / Qabs previous) by (apply Qmult_le_0_compat; lra).
      lra.
Qed.

Lemma track_change_entry_witness :
  exists st' e,
    track_change Sample.clock Sample.fee_label 2 3 Sample.year_label
      (SessionState.mk Sample.year Sample.year Sample.year [] (Some (- 1000000)))
    = Ok st' /\
    SessionState.change_history st' = [e] /\
    ChangeEntry.variable e = Sample.fee_label /\
    (0 <= ChangeEntry.impact_pct e <-> 0 <= ChangeEntry.impact_abs e).
Proof.
  destruct (track_change Sample.clock Sample.fee_label 2 3 Sample.year_label
              (SessionState.mk Sample.year Sample.year Sample.year []
                               (Some (- 1000000))))
    as [st'|x] eqn:H; [|vm_compute in H; discriminate].
  destruct (track_change_entry _ _ _ _ _ (- 1000000) _ st' H)
    as (s & e & _ & Hh & _ & _ & Hv & _ & _ & _ & _ & _ & Hsign);
    [vm_compute; discriminate | reflexivity |].
  exists st', e. split; [reflexivity|]. split; [exact Hh|]. split; [exact Hv|].
  apply Hsign. vm_compute. discriminate.
Defined.

(** X21.  The impact is measured against the year-3 net income of the
    previous tracked change, not against the change itself: a second
    changed value tracked on the session a first call returned records an
    impact of 0, whatever the two changes were. *)
Theorem track_change_twice
  (now1 variable1 year1 now2 variable2 year2 : String.string)
  (old1 new1 old2 new2 : Q) (st st1 st2 : SessionState.t) :
  track_change now1 variable1 old1 new1 year1 st = Ok st1 ->
  ~ old1 == new1 ->
  track_change now2 variable2 old2 new2 year2 st1 = Ok st2 ->
  ~ old2 == new2 ->
  exists e,
    SessionState.change_history st2 = SessionState.change_history st1 ++ [e] /\
    ChangeEntry.impact_abs e == 0 /\
    ChangeEntry.impact_pct e == 0 /\
    SessionState.previous_year3_net_income st2 =
      SessionState.previous_year3_net_income st1.
Proof.
  intros H1 Hne1 H2 Hne2.
  destruct (calculate_full_income_statement
              (YearData.pricing (SessionState.year3 st))
              (YearData.volume (SessionState.year3 st))
              (YearData.cogs (SessionState.year3 st))
              (YearData.opex (SessionState.year3 st))) as [s|x] eqn:Hs.
  2:{ destruct x. rewrite (track_change_raises _ _ _ _ _ _ Hne1 Hs) in H1.
      discriminate. }
  rewrite (track_change_changed _ _ _ _ _ _ s Hne1 Hs) in H1.
  apply (f_equal (fun x => match x with Ok a => a | Raise _ => st end)) in H1.
  assert (Hy : SessionState.year3 st1 = SessionState.year3 st)
    by (subst st1; now destruct (SessionState.previous_year3_net_income st)).
  assert (Hp : SessionState.previous_year3_net_income st1 =
               Some (IncomeStatement.net_income s)) by now subst st1.
  rewrite <- Hy in Hs. clear H1.
  rewrite (track_change_changed _ _ _ _ _ _ s Hne2 Hs), Hp in H2.
  apply (f_equal (fun x => match x with Ok a => a | Raise _ => st end)) in H2.
  subst st2. eexists. split; [reflexivity|].
  cbn [ChangeEntry.impact_abs ChangeEntry.impact_pct
       SessionState.set_previous_year3_net_income
       SessionState.previous_year3_net_income].
  split; [ring|]. split; [|now rewrite Hp].
  destruct (Qeq_bool _ 0); [reflexivity|]. unfold Qdiv. ring.
Qed.

Lemma track_change_twice_witness :
  exists st1 st2 e1 e2,
    track_change Sample.clock Sample.fee_label 2 3 Sample.year_label Sample.session
    = Ok st1 /\
    track_change Sample.clock Sample.fee_label 3 4 Sample.year_label st1 = Ok st2 /\
    SessionState.change_history st2 = [e1; e2] /\
    ChangeEntry.impact_abs e2 == 0.
Proof.
  assert (Hrun :
    exists st1 st2 e1,
      track_change Sample.clock Sample.fee_label 2 3 Sample.year_label
        Sample.session = Ok st1 /\
      track_change Sample.clock Sample.fee_label 3 4 Sample.year_label st1
        = Ok st2 /\
      SessionState.change_history st1 = [e1]).
  { do 3 eexists. split; [vm_compute; reflexivity|].
    split; [vm_compute; reflexivity | reflexivity]. }
  destruct Hrun as (st1 & st2 & e1 & H1 & H2 & Hh1).
  assert (Hne1 : ~ 2 == 3) by (vm_compute; discriminate).
  assert (Hne2 : ~ 3 == 4) by (vm_compute; discriminate).
  destruct (track_change_twice _ _ _ _ _ _ _ _ _ _ _ st1 st2 H1 Hne1 H2 Hne2)
    as (e2 & Hh & Ha & _).
  exists st1, st2, e1, e2. split; [exact H1|]. split; [exact H2|].
  split; [|exact Ha].
  rewrite Hh, Hh1. reflexivity.
Defined.

(** ** Aggregator channel and revenue signs *)



(** X23.  For pricing and volume assumptions that are not negative no
    revenue stream is negative, so the total revenue is at least each of
    its five streams. *)
Theorem revenue_streams_nonnegative (pricing : Pricing.t) (volume : Volume.t) :
  0 <= Pricing.monthly_fee pricing -> 0 <= Pricing.setup_fee pricing ->
  0 <= Pricing.per_use_fee pricing -> 0 <= Pricing.deposit pricing ->
  0 <= Pricing.green_fee pricing -> 0 <= Pricing.revenue_share_pct pricing ->
  0 <= Volume.restaurants volume -> 0 <= Volume.new_restaurants volume ->
  0 <= Volume.orders_per_day volume -> 0 <= Volume.operating_days volume ->
  0 <= Volume.shrinkage volume ->
  0 <= Volume.zomato_orders_per_day volume ->
  0 <= Volume.zomato_operating_days volume ->
  0 <= Revenue.total_orders (calculate_revenue pricing volume) /\
  0 <= Revenue.usage_revenue (calculate_revenue pricing volume)
    <= Revenue.total_revenue (calculate_revenue pricing volume) /\
  0 <= Revenue.subscription_revenue (calculate_revenue pricing volume)
    <= Revenue.total_revenue (calculate_revenue pricing volume) /\
  0 <= Revenue.setup_revenue (calculate_revenue pricing volume)
    <= Revenue.total_revenue (calculate_revenue pricing volume) /\
  0 <= Revenue.shrinkage_revenue (calculate_revenue pricing volume)
    <= Revenue.total_revenue (calculate_revenue pricing volume) /\
  0 <= Revenue.aggregator_revenue (calculate_revenue pricing volume)
    <= Revenue.total_revenue (calculate_revenue pricing volume).
Proof.
  intros Hm Hs Hu Hdp Hg Hp Hn Hnew Ho Hd Hsh Hzo Hzd.
  unfold calculate_revenue.
  cbn [Revenue.total_orders Revenue.usage_revenue Revenue.subscription_revenue
       Revenue.setup_revenue Revenue.shrinkage_revenue Revenue.aggregator_revenue
       Revenue.total_revenue].
  assert (Hmo : 0 <= Volume.operating_days volume / 30)
    by (apply Qle_shift_div_l; lra).
  pose proof (Qmult_le_0_compat _ _ (Qmult_le_0_compat _ _ Hn Ho) Hd) as Ht.
  pose proof (Qmult_le_0_compat _ _ Ht Hu).
  pose proof (Qmult_le_0_compat _ _ (Qmult_le_0_compat _ _ Hn Hm) Hmo).
  pose proof (Qmult_le_0_compat _ _ Hnew Hs).
  pose proof (Qmult_le_0_compat _ _ (Qmult_le_0_compat _ _ Ht Hdp) Hsh).
  pose proof (Qmult_le_0_compat _ _
                (Qmult_le_0_compat _ _ (Qmult_le_0_compat _ _ Hzo Hzd) Hg) Hp).
  repeat split; lra.
Qed.

Lemma revenue_streams_nonnegative_witness :
  0 <= Revenue.subscription_revenue (calculate_revenue Sample.pricing Sample.volume)
    <= Revenue.total_revenue (calculate_revenue Sample.pricing Sample.volume).
Proof.
  destruct (revenue_streams_nonnegative Sample.pricing Sample.volume)
    as (_ & _ & Hsub & _); try (vm_compute; discriminate).
  exact Hsub.
Defined.
